(** * gphotosdl: the browser-session controller of [main.go]

    A shallow embedding of the two variants of [main.go] and the
    properties of their authentication loop, download sequence and request
    handler.  Variant A is the first text of the file: it opens the photo by
    its direct URL and tests the home tab by prefix.  Variant B is the
    second: it opens the photo through the [/lr/] redirect, checks the
    network response and tests the home tab by equality.

    The browser (go-rod), the file system and the HTTP response writer are
    outside the program.  Every call the program makes to them is recorded,
    with its outcome, in a trace; what they answer is supplied by a record
    of outcomes, so a statement quantified over that record holds whatever
    the browser does.  Logging ([slog]) is not modelled. *)

From Stdlib Require Import String Ascii List ZArith Bool Arith Lia DecimalString.
Import ListNotations.
Local Open Scope string_scope.
Local Open Scope list_scope.

(** ** The fragment of the Go library the program relies on *)

Module Go.

(** [strings.HasPrefix(s, prefix)]. *)
Definition HasPrefix (s pre : string) : bool := String.prefix pre s.

(** [strings.Contains(s, substr)], used to state what an error message
    mentions. *)
Fixpoint Contains (s sub : string) : bool :=
  String.prefix sub s ||
  match s with
  | EmptyString => false
  | String _ s' => Contains s' sub
  end.

(** [%d] of an [int]. *)
Definition itoa (n : Z) : string := NilZero.string_of_int (Z.to_int n).

(** Error values.  [External] stands for an error made by go-rod or by
    package [os]; [New] for [errors.New]; [Wrap] for
    [fmt.Errorf(prefix + "%w", err)], whose message is the prefix followed
    by the message of the wrapped error. *)
Inductive error : Type :=
| External (msg : string)
| New (msg : string)
| httpError (code : Z)
| Wrap (prefix : string) (err : error).

(** The [Error() string] method; for [httpError] it is
    [fmt.Sprintf("HTTP Error %d", h)]. *)
Fixpoint Error (e : error) : string :=
  match e with
  | External msg => msg
  | New msg => msg
  | httpError h => "HTTP Error " ++ itoa h
  | Wrap prefix err => prefix ++ Error err
  end.

(** [var h httpError; errors.As(err, &h)]: the first [httpError] on the
    chain of wrapped errors.  An error of the libraries cannot hold one,
    the type being private to package main. *)
Fixpoint As_httpError (e : error) : option Z :=
  match e with
  | httpError h => Some h
  | Wrap _ err => As_httpError err
  | External _ | New _ => None
  end.

(** The result of a call that returns [(T, error)]. *)
Inductive result (T : Type) : Type :=
| Ok (v : T)
| Err (e : error).
Arguments Ok {T} v.
Arguments Err {T} e.

Definition StatusInternalServerError : Z := 500.

End Go.
Import Go.

(** The library functions whose full definition the development does not
    need: [strconv.Quote], which renders the [%q] verb, and
    [filepath.Join]. *)
Record Library : Type := {
  Quote : string -> string;
  Join : string -> string -> string
}.

(** ** The outside world *)

(** A tab ([*rod.Page]) is identified by the order in which the browser
    created it. *)
Definition Tab : Type := nat.

(** [proto.NetworkResponseReceived], reduced to the two fields that are
    read: [e.Response.URL] and [e.Response.Status]. *)
Record NetworkResponseReceived : Type := {
  Response_URL : string;
  Response_Status : Z
}.

(** The calls made to the outside, each with its outcome. *)
Inductive Action : Type :=
| MuLock
| MuUnlock
| LauncherLaunch (headless : bool) (err : option error)
| BrowserConnect (err : option error)
| BrowserPage (url : string) (r : result Tab)
| PageClose (t : Tab) (err : option error)
| PageInfo (t : Tab) (r : result string)
| PageEachEvent (t : Tab)
| WaitNetwork (t : Tab) (netResponse : option NetworkResponseReceived)
| PageNavigate (t : Tab) (url : string) (err : option error)
| PageWaitLoad (t : Tab) (err : option error)
| PageWaitDownload (t : Tab) (err : option error)
| BrowserWaitDownload (dir : string)
| TimeSleep (seconds : nat)
| PageKeyActions (t : Tab) (err : option error)
| WaitDownload (guid : string)
| OsStat (path : string) (err : option error)
| OsRemove (path : string) (err : option error)
| WriteHeader (code : Z)
| ServeFile (path : string).

(** The state of the browser session: the tabs that are open and the
    identifier the next tab will get. *)
Record Browser : Type := {
  tabs : list Tab;
  next : Tab
}.

(** What the browser and the file system answer during one request. *)
Record Transport : Type := {
  on_Page : option error;
  on_Close : option error;
  on_WaitDownload : option error;
  on_Navigate : option error;
  on_WaitLoad : Tab -> option error;
  on_events : list NetworkResponseReceived;
  on_KeyActions : option error;
  on_GUID : string;
  on_Stat : string -> option error;
  on_Remove : option error
}.

(** What they answer during start-up; [on_Info k] is the answer to the
    poll of the home tab made in iteration [k] of the authentication loop. *)
Record Startup : Type := {
  on_Launch : option error;
  on_Connect : option error;
  on_HomePage : option error;
  on_HomeLoad : option error;
  on_Info : nat -> result string
}.

(** ** Statements, early return and [defer] *)

(** A statement either falls through with a value or executes [return]. *)
Inductive Flow (R A : Type) : Type :=
| Return (r : R)
| Next (a : A).
Arguments Return {R A} r.
Arguments Next {R A} a.

(** A statement of a function that returns an [R]: from the state of the
    browser to how it ends, the new state and the calls it made. *)
Definition Stmt (R A : Type) : Type :=
  Browser -> Flow R A * Browser * list Action.

(** A function: its result, the new state and the calls it made. *)
Definition Func (R : Type) : Type :=
  Browser -> R * Browser * list Action.

Definition ret {R A} (a : A) : Stmt R A :=
  fun b => (Next a, b, []).

Definition return_ {R A} (r : R) : Stmt R A :=
  fun b => (Return r, b, []).

Definition bind {R A B} (c : Stmt R A) (k : A -> Stmt R B) : Stmt R B :=
  fun b =>
    match c b with
    | (Return r, b1, t1) => (Return r, b1, t1)
    | (Next a, b1, t1) =>
        match k a b1 with
        | (f, b2, t2) => (f, b2, t1 ++ t2)
        end
    end.

(** [defer cleanup; rest]: [cleanup] runs when the function leaves [rest],
    by [return] or at its end. *)
Definition defer {R A} (cleanup : Func unit) (rest : Stmt R A) : Stmt R A :=
  fun b =>
    match rest b with
    | (f, b1, t1) =>
        match cleanup b1 with
        | (_, b2, t2) => (f, b2, t1 ++ t2)
        end
    end.

(** The body of a function. *)
Definition func {R} (body : Stmt R R) : Func R :=
  fun b =>
    match body b with
    | (Return r, b1, t) => (r, b1, t)
    | (Next r, b1, t) => (r, b1, t)
    end.

(** A call of a function of the program or of the outside. *)
Definition call {R A} (f : Func A) : Stmt R A :=
  fun b => match f b with (a, b1, t) => (Next a, b1, t) end.

(** A call to the outside that leaves the set of tabs as it is. *)
Definition outside {A} (a : Action) (v : A) : Func A :=
  fun b => (v, b, [a]).

Declare Scope stmt_scope.
Delimit Scope stmt_scope with stmt.
Notation "x <- c ;; k" := (bind c (fun x => k))
  (at level 61, c at next level, right associativity) : stmt_scope.
Notation "c ;; k" := (bind c (fun _ => k))
  (at level 61, right associativity) : stmt_scope.
Notation "'Defer' c ;; k" := (defer c k)
  (at level 61, c at next level, right associativity) : stmt_scope.

(** [if err != nil { return r err }]. *)
Definition check {R} (err : option error) (r : error -> R) : Stmt R unit :=
  match err with
  | Some e => return_ (r e)
  | None => ret tt
  end.

(** ** Calls to the outside *)

(** The process-wide variables set by [config()] and by the flags. *)
Record Globals : Type := {
  downloadDir : string;
  login : bool;
  show : bool
}.

(** [*Gphotos], reduced to the home tab [g.page]: there is one browser,
    whose state is threaded through every statement, and the mutex [g.mu]
    appears as the calls [MuLock] and [MuUnlock]. *)
Record Gphotos : Type := {
  page : Tab
}.

(** [g.page] under a name that a local variable [page] does not hide. *)
Definition g_page (g : Gphotos) : Tab := page g.

Definition mu_Lock : Func unit := outside MuLock tt.
Definition mu_Unlock : Func unit := outside MuUnlock tt.

(** [g.browser.Page(proto.TargetCreateTarget{URL: url})]: when it succeeds
    the browser has one more tab, which no earlier tab is equal to. *)
Definition browser_Page (answer : option error) (url : string)
  : Func (result Tab) :=
  fun b =>
    match answer with
    | Some e => (Err e, b, [BrowserPage url (Err e)])
    | None =>
        (Ok (next b),
         {| tabs := next b :: tabs b; next := S (next b) |},
         [BrowserPage url (Ok (next b))])
    end.

(** [page.Close()]: when it succeeds the tab is no longer open. *)
Definition page_Close (answer : option error) (t : Tab)
  : Func (option error) :=
  fun b =>
    match answer with
    | Some e => (Some e, b, [PageClose t (Some e)])
    | None =>
        (None,
         {| tabs := List.remove Nat.eq_dec t (tabs b); next := next b |},
         [PageClose t None])
    end.

Definition page_Info (answer : result string) (t : Tab)
  : Func (result string) :=
  outside (PageInfo t answer) answer.

Definition page_Navigate (answer : option error) (t : Tab) (url : string)
  : Func (option error) :=
  outside (PageNavigate t url answer) answer.

Definition page_WaitLoad (answer : Tab -> option error) (t : Tab)
  : Func (option error) :=
  outside (PageWaitLoad t (answer t)) (answer t).

Definition page_WaitDownload (answer : option error) (t : Tab)
  : Func (option error) :=
  outside (PageWaitDownload t answer) answer.

Definition browser_WaitDownload (dir : string) : Func unit :=
  outside (BrowserWaitDownload dir) tt.

(** [page.KeyActions().Press(input.ShiftLeft).Type('D').Do()]. *)
Definition page_KeyActions (answer : option error) (t : Tab)
  : Func (option error) :=
  outside (PageKeyActions t answer) answer.

(** [wait()], the function returned by [WaitDownload]: it returns when the
    download is complete, with the event that names the file. *)
Definition wait (guid : string) : Func string :=
  outside (WaitDownload guid) guid.

Definition time_Sleep (seconds : nat) : Func unit :=
  outside (TimeSleep seconds) tt.

Definition os_Stat (answer : string -> option error) (path : string)
  : Func (option error) :=
  outside (OsStat path (answer path)) (answer path).

Definition os_Remove (answer : option error) (path : string)
  : Func (option error) :=
  outside (OsRemove path answer) answer.

(** [page.EachEvent(callback)] subscribes at once and returns a function;
    that function hands the events to [callback] in order and returns at the
    first one for which [callback] returns true, or when the events end (the
    context of the tab is done).  [S] is the variable the callback assigns. *)
Definition page_EachEvent (t : Tab) : Func unit :=
  outside (PageEachEvent t) tt.

Fixpoint eachEvent {S E : Type} (callback : E -> S -> S * bool)
    (events : list E) (s : S) : S :=
  match events with
  | [] => s
  | e :: rest =>
      match callback e s with
      | (s', true) => s'
      | (s', false) => eachEvent callback rest s'
      end
  end.

Definition waitNetwork (events : list NetworkResponseReceived) (t : Tab)
    (callback : NetworkResponseReceived ->
                option NetworkResponseReceived ->
                option NetworkResponseReceived * bool)
    (netResponse : option NetworkResponseReceived)
  : Func (option NetworkResponseReceived) :=
  fun b =>
    (eachEvent callback events netResponse, b,
     [WaitNetwork t (eachEvent callback events netResponse)]).

(** ** Constants shared by the two variants *)

Definition program : string := "gphotosdl".
Definition gphotosURL : string := "https://photos.google.com/".
Definition gphotoURLReal : string := "https://photos.google.com/photo/".

(** ** [startBrowser]

    The two variants differ in [loginURL] and in the test made on the URL
    of the home tab; the rest of the function is the same text. *)

Section StartBrowser.

Variable loginURL : string.
Variable landed : string -> bool.
Variable cfg : Globals.
Variable env : Startup.

Local Open Scope stmt_scope.

(** [for try := 0; *login || try < 60; try++ { ... }].  With [-login]
    the loop has no bound: [fuel] bounds the iterations looked at, and
    the result is [None] when they are used up with the loop still
    running.  [try] stays below 61 when the loop is bounded and is not
    read otherwise, so it is a natural number here. *)
Fixpoint authLoop {R} (fuel try : nat) (home : Tab) (authenticated : bool)
  : Stmt R (option bool) :=
  if login cfg || (try <? 60)%nat then
    match fuel with
    | O => ret None
    | S fuel' =>
        call (time_Sleep 1) ;;
        info <- call (page_Info (on_Info env try) home) ;;
        match info with
        | Err _ => authLoop fuel' (S try) home authenticated
        | Ok info_URL =>
            if landed info_URL
            then ret (Some true)
            else authLoop fuel' (S try) home authenticated
        end
    end
  else ret (Some authenticated).

(** The result is [None] when the loop is still running after [fuel]
    iterations, [Some (Err e)] when [startBrowser] returns the error [e],
    and [Some (Ok g)] when it returns nil, with [g.page] the home tab. *)
Definition startBrowserWith (fuel : nat)
  : Func (option (result Gphotos)) :=
  func (
    let isHeadless := negb (show cfg) && negb (login cfg) in
    err <- call (outside (LauncherLaunch isHeadless (on_Launch env))
                   (on_Launch env)) ;;
    check err (fun err => Some (Err (Wrap "browser launch: " err))) ;;
    err <- call (outside (BrowserConnect (on_Connect env)) (on_Connect env)) ;;
    check err
      (fun err => Some (Err (Wrap "failed to connect to browser: " err))) ;;
    let startURL := if login cfg then loginURL else gphotosURL in
    r <- call (browser_Page (on_HomePage env) startURL) ;;
    match r with
    | Err err =>
        return_ (Some (Err (Wrap "couldn't open initial URL: " err)))
    | Ok home =>
        err <- call (page_WaitLoad (fun _ => on_HomeLoad env) home) ;;
        check err (fun err => Some (Err (Wrap "initial page load: " err))) ;;
        authenticated <- authLoop fuel 0 home false ;;
        match authenticated with
        | None => return_ None
        | Some false =>
            return_ (Some (Err (New
              "browser is not logged in - rerun with the -login flag")))
        | Some true => return_ (Some (Ok {| page := home |}))
        end
    end).

End StartBrowser.

(** ** Variant A: the photo is fetched by its direct URL *)

Module VariantA.

Definition loginURL : string := "https://accounts.google.com/".
Definition gphotoURL : string := "https://photos.google.com/photo/".

(** The test of the authentication loop:
    [strings.HasPrefix(info.URL, gphotosURL)]. *)
Definition authenticated (info_URL : string) : bool :=
  HasPrefix info_URL gphotosURL.

Definition startBrowser : Globals -> Startup -> nat ->
                          Func (option (result Gphotos)) :=
  startBrowserWith loginURL authenticated.

Section Requests.

Variable lib : Library.
Variable cfg : Globals.
Variable env : Transport.

Local Open Scope string_scope.
Local Open Scope stmt_scope.

Definition Download (g : Gphotos) (photoID : string)
  : Func (string * option error) :=
  func (
    call mu_Lock ;;
    Defer mu_Unlock ;;
    let url := gphotoURL ++ photoID in
    r <- call (browser_Page (on_Page env) "") ;;
    match r with
    | Err err =>
        return_ ("", Some (Wrap
          ("failed to open browser tab for photo "
             ++ Quote lib photoID ++ ": ") err))
    | Ok page =>
        Defer (func (_ <- call (page_Close (on_Close env) page) ;;
                     return_ tt)) ;;
        err <- call (page_WaitDownload (on_WaitDownload env) page) ;;
        check err (fun err =>
          ("", Some (Wrap "failed to set up download waiter: " err))) ;;
        err <- call (page_Navigate (on_Navigate env) page url) ;;
        check err (fun err =>
          ("", Some (Wrap
            ("failed to navigate to photo "
               ++ Quote lib photoID ++ ": ") err))) ;;
        err <- call (page_WaitLoad (on_WaitLoad env) page) ;;
        check err (fun err =>
          ("", Some (Wrap "gphoto page load: " err))) ;;
        call (time_Sleep 1) ;;
        err <- call (page_KeyActions (on_KeyActions env) page) ;;
        check err (fun err =>
          ("", Some (Wrap "failed to send download keypress: " err))) ;;
        downloadEvent_GUID <- call (wait (on_GUID env)) ;;
        let path := Join lib (downloadDir cfg) downloadEvent_GUID in
        err <- call (os_Stat (on_Stat env) path) ;;
        check err (fun err =>
          ("", Some (Wrap "download failed, file not found: " err))) ;;
        return_ (path, None)
    end).

Definition getID (g : Gphotos) (photoID : string) : Func unit :=
  func (
    r <- call (Download g photoID) ;;
    let '(path, err) := r in
    match err with
    | Some err =>
        match As_httpError err with
        | Some h => call (outside (WriteHeader h) tt)
        | None =>
            call (outside (WriteHeader StatusInternalServerError) tt)
        end ;;
        return_ tt
    | None =>
        Defer (func (_ <- call (os_Remove (on_Remove env) path) ;;
                     return_ tt)) ;;
        call (outside (ServeFile path) tt) ;;
        return_ tt
    end).

End Requests.

End VariantA.

(** ** Variant B: the photo is fetched through the redirecting URL and the
    network response is checked *)

Module VariantB.

Definition loginURL : string := "https://photos.google.com/login".
Definition gphotoURL : string := "https://photos.google.com/lr/photo/".

(** The test of the authentication loop: [info.URL == gphotosURL]. *)
Definition authenticated (info_URL : string) : bool :=
  String.eqb info_URL gphotosURL.

Definition startBrowser : Globals -> Startup -> nat ->
                          Func (option (result Gphotos)) :=
  startBrowserWith loginURL authenticated.

(** The function given to [page.EachEvent]; [netResponse] is the variable
    of [Download] it assigns. *)
Definition callback (e : NetworkResponseReceived)
    (netResponse : option NetworkResponseReceived)
  : option NetworkResponseReceived * bool :=
  if HasPrefix (Response_URL e) gphotoURLReal then (Some e, true)
  else if HasPrefix (Response_URL e) gphotoURL then (Some e, true)
  else (netResponse, false).

Section Requests.

Variable lib : Library.
Variable cfg : Globals.
Variable env : Transport.

Local Open Scope string_scope.
Local Open Scope stmt_scope.

Definition Download (g : Gphotos) (photoID : string)
  : Func (string * option error) :=
  func (
    call mu_Lock ;;
    Defer mu_Unlock ;;
    let url := gphotoURL ++ photoID in
    r <- call (browser_Page (on_Page env) "") ;;
    match r with
    | Err err =>
        return_ ("", Some (Wrap
          ("failed to open browser tab for photo "
             ++ Quote lib photoID ++ ": ") err))
    | Ok page =>
        Defer (func (_ <- call (page_Close (on_Close env) page) ;;
                     return_ tt)) ;;
        let netResponse := None in
        call (page_EachEvent page) ;;
        err <- call (page_Navigate (on_Navigate env) page url) ;;
        check err (fun err =>
          ("", Some (Wrap
            ("failed to navigate to photo "
               ++ Quote lib photoID ++ ": ") err))) ;;
        err <- call (page_WaitLoad (on_WaitLoad env) (g_page g)) ;;
        check err (fun err =>
          ("", Some (Wrap "gphoto page load: " err))) ;;
        netResponse <-
          call (waitNetwork (on_events env) page callback netResponse) ;;
        match netResponse with
        | None =>
            return_ ("", Some (New
              "did not receive the expected network response for the photo"))
        | Some netResponse =>
            (if negb (Response_Status netResponse =? 200)%Z
             then return_ ("", Some (Wrap "gphoto fetch failed: "
                             (httpError (Response_Status netResponse))))
             else ret tt) ;;
            call (browser_WaitDownload (downloadDir cfg)) ;;
            call (time_Sleep 1) ;;
            err <- call (page_KeyActions (on_KeyActions env) page) ;;
            check err (fun err =>
              ("", Some (Wrap "failed to send download keypress: " err))) ;;
            info_GUID <- call (wait (on_GUID env)) ;;
            let path := Join lib (downloadDir cfg) info_GUID in
            err <- call (os_Stat (on_Stat env) path) ;;
            check err (fun err =>
              ("", Some (Wrap "download failed, file not found: " err))) ;;
            return_ (path, None)
        end
    end).

Definition getID (g : Gphotos) (photoID : string) : Func unit :=
  func (
    r <- call (Download g photoID) ;;
    let '(path, err) := r in
    match err with
    | Some err =>
        match As_httpError err with
        | Some h => call (outside (WriteHeader h) tt)
        | None =>
            call (outside (WriteHeader StatusInternalServerError) tt)
        end ;;
        return_ tt
    | None =>
        Defer (func (_ <- call (os_Remove (on_Remove env) path) ;;
                     return_ tt)) ;;
        call (outside (ServeFile path) tt) ;;
        return_ tt
    end).

End Requests.

End VariantB.

(** ** Observations on a run *)

Definition value {R} (run : R * Browser * list Action) : R := fst (fst run).
Definition after {R} (run : R * Browser * list Action) : Browser :=
  snd (fst run).
Definition calls {R} (run : R * Browser * list Action) : list Action :=
  snd run.

(** A response comes from one of the two photo addresses of variant B. *)
Definition matchesB (e : NetworkResponseReceived) : bool :=
  HasPrefix (Response_URL e) gphotoURLReal
  || HasPrefix (Response_URL e) VariantB.gphotoURL.

(** The calls made on the [http.ResponseWriter]. *)
Definition isResponse (a : Action) : bool :=
  match a with
  | WriteHeader _ | ServeFile _ => true
  | _ => false
  end.

Definition responses (t : list Action) : list Action := filter isResponse t.

(** The polls of the home tab, [g.page.Info()]. *)
Definition isPoll (a : Action) : bool :=
  match a with
  | PageInfo _ _ => true
  | _ => false
  end.

Definition polls (t : list Action) : nat := length (filter isPoll t).

(** The tab a call is made on, for the calls that are made on a tab. *)
Definition tabOf (a : Action) : option Tab :=
  match a with
  | PageClose t _ | PageInfo t _ | PageEachEvent t | WaitNetwork t _
  | PageNavigate t _ _ | PageWaitLoad t _ | PageWaitDownload t _
  | PageKeyActions t _ => Some t
  | _ => None
  end.

Definition isMutex (a : Action) : bool :=
  match a with
  | MuLock | MuUnlock => true
  | _ => false
  end.

(** A run that begins with [MuLock], ends with [MuUnlock] and does not touch
    the mutex in between. *)
Definition bracketed (t : list Action) : bool :=
  match t with
  | MuLock :: rest =>
      match rev rest with
      | MuUnlock :: body => negb (existsb isMutex body)
      | _ => false
      end
  | _ => false
  end.

(** ** Concurrent requests

    [net/http] runs each handler on a goroutine of its own.  A request in
    flight is the list of calls it has made and the list of those it has
    yet to make; the requests share the mutex.  A step lets one request
    make its next call; [g.mu.Lock()] can be made only while the mutex is
    free, and every other call at any time. *)

Record Request : Type := {
  made : list Action;
  todo : list Action
}.

Record System : Type := {
  mu : bool;
  requests : list Request
}.

Definition enabled (held : bool) (a : Action) : bool :=
  match a with
  | MuLock => negb held
  | _ => true
  end.

Definition mutexAfter (held : bool) (a : Action) : bool :=
  match a with
  | MuLock => true
  | MuUnlock => false
  | _ => held
  end.

Inductive step : System -> System -> Prop :=
| step_call (held : bool) (before behind : list Request)
    (m rest : list Action) (a : Action) :
    enabled held a = true ->
    step {| mu := held;
            requests :=
              before ++ {| made := m; todo := a :: rest |} :: behind |}
         {| mu := mutexAfter held a;
            requests :=
              before ++ {| made := m ++ [a]; todo := rest |} :: behind |}.

Inductive reachable (s0 : System) : System -> Prop :=
| reachable_start : reachable s0 s0
| reachable_step (s s' : System) :
    reachable s0 s -> step s s' -> reachable s0 s'.

(** A request is inside the download sequence once it has locked the mutex
    and as long as it has not unlocked it. *)
Definition isLock (a : Action) : bool :=
  match a with MuLock => true | _ => false end.

Definition isUnlock (a : Action) : bool :=
  match a with MuUnlock => true | _ => false end.

Definition inSequence (r : Request) : bool :=
  existsb isLock (made r) && negb (existsb isUnlock (made r)).

(** The system in which the given runs of [Download] are about to start. *)
Definition start (runs : list (list Action)) : System :=
  {| mu := false;
     requests := map (fun t => {| made := []; todo := t |}) runs |}.

(** The number of requests inside the download sequence. *)
Definition inside (s : System) : nat :=
  length (filter inSequence (requests s)).

(** The calls of a request, made and to make, are those of a run that
    locks first and unlocks last. *)
Definition wellBracketed (r : Request) : Prop :=
  bracketed (made r ++ todo r) = true.

(** What every step keeps: each request is well bracketed, and the number
    of requests inside the sequence is one when the mutex is held and none
    when it is free. *)
Definition invariant (s : System) : Prop :=
  Forall wellBracketed (requests s)
  /\ inside s = (if mu s then 1 else 0).

(** The runs of [Download], of either variant, on any answers. *)
Inductive DownloadRun : list Action -> Prop :=
| run_VariantA lib cfg env g photoID b :
    DownloadRun (calls (VariantA.Download lib cfg env g photoID b))
| run_VariantB lib cfg env g photoID b :
    DownloadRun (calls (VariantB.Download lib cfg env g photoID b)).

(** ** A library to run the program with

    [strconv.Quote] for strings of ASCII bytes and [filepath.Join] of two
    elements with [/] as separator, after the Go documentation.  The
    statements below hold for every [Library]; this one serves the
    examples. *)

Module Unix.

Local Open Scope string_scope.

Definition hexDigit (n : nat) : string :=
  match String.get n "0123456789abcdef" with
  | Some c => String c ""
  | None => ""
  end.

Definition quoteByte (c : ascii) : string :=
  let n := nat_of_ascii c in
  if (n =? 34)%nat || (n =? 92)%nat then String "\" (String c "")
  else if (32 <=? n)%nat && (n <? 127)%nat then String c ""
  else if (n =? 7)%nat then "\a"
  else if (n =? 8)%nat then "\b"
  else if (n =? 12)%nat then "\f"
  else if (n =? 10)%nat then "\n"
  else if (n =? 13)%nat then "\r"
  else if (n =? 9)%nat then "\t"
  else if (n =? 11)%nat then "\v"
  else "\x" ++ hexDigit (n / 16) ++ hexDigit (n mod 16).

Fixpoint quoteBody (s : string) : string :=
  match s with
  | "" => ""
  | String c s' => quoteByte c ++ quoteBody s'
  end.

Definition Quote (s : string) : string :=
  String "034" (quoteBody s ++ String "034" "").

Fixpoint splitSlash (s cur : string) : list string :=
  match s with
  | "" => [cur]
  | String c s' =>
      if Ascii.eqb c "/" then cur :: splitSlash s' ""
      else splitSlash s' (cur ++ String c "")
  end.

(** One element of the path, [out] being the elements kept so far, last
    first. *)
Definition cleanStep (rooted : bool) (out : list string) (elem : string)
  : list string :=
  if String.eqb elem "" || String.eqb elem "." then out
  else if String.eqb elem ".." then
    match out with
    | top :: below => if String.eqb top ".." then elem :: out else below
    | [] => if rooted then [] else [elem]
    end
  else elem :: out.

Definition Clean (path : string) : string :=
  let rooted := String.prefix "/" path in
  let out := fold_left (cleanStep rooted) (splitSlash path "") [] in
  let body := String.concat "/" (rev out) in
  if rooted then "/" ++ body
  else if String.eqb body "" then "." else body.

Definition Join (a b : string) : string :=
  if String.eqb a "" then (if String.eqb b "" then "" else Clean b)
  else Clean (a ++ "/" ++ b).

Definition library : Library := Build_Library Quote Join.

End Unix.

(** ** Runs used as examples *)

Module Example.

Local Open Scope string_scope.

Definition cfg : Globals :=
  {| downloadDir := "/tmp/gphotosdl2517"; login := false; show := false |}.

(** The home tab is the first tab of the browser. *)
Definition g : Gphotos := {| page := 0 |}.
Definition b : Browser := {| tabs := [0]; next := 1 |}.

(** The constant [photoID] of [main.go]. *)
Definition photoID : string := "AF1QipNJVLe7d5mOh-b4CzFAob1UW-6EpFd0HnCBT3c6".

Definition guid : string := "0b3c9f46-6f0e-4a57-9d54-5a1f0c2e8d11".

Definition response (url : string) (status : Z) : NetworkResponseReceived :=
  {| Response_URL := url; Response_Status := status |}.

Definition transport (events : list NetworkResponseReceived) : Transport :=
  {| on_Page := None;
     on_Close := None;
     on_WaitDownload := None;
     on_Navigate := None;
     on_WaitLoad := fun _ => None;
     on_events := events;
     on_KeyActions := None;
     on_GUID := guid;
     on_Stat := fun _ => None;
     on_Remove := None |}.

(** Every call succeeds and the photo page answers 200. *)
Definition ok : Transport :=
  transport
    [response "https://photos.google.com/_/scs/social-static/app.js" 200;
     response ("https://photos.google.com/photo/" ++ photoID) 200].

(** The photo page answers 404. *)
Definition notFound : Transport :=
  transport
    [response "https://photos.google.com/_/scs/social-static/app.js" 200;
     response ("https://photos.google.com/lr/photo/" ++ photoID) 404].

(** No response comes from either photo address before the tab is done. *)
Definition noMatch : Transport :=
  transport
    [response "https://photos.google.com/_/scs/social-static/app.js" 200;
     response "https://accounts.google.com/ServiceLogin" 200].

(** The wait for the end of the page load fails. *)
Definition loadFails : Transport :=
  {| on_Page := None;
     on_Close := None;
     on_WaitDownload := None;
     on_Navigate := None;
     on_WaitLoad := fun _ => Some (External "context deadline exceeded");
     on_events := [];
     on_KeyActions := None;
     on_GUID := guid;
     on_Stat := fun _ => None;
     on_Remove := None |}.

(** The navigation fails. *)
Definition navigateFails : Transport :=
  {| on_Page := None;
     on_Close := None;
     on_WaitDownload := None;
     on_Navigate := Some (External "net::ERR_NAME_NOT_RESOLVED");
     on_WaitLoad := fun _ => None;
     on_events := [];
     on_KeyActions := None;
     on_GUID := guid;
     on_Stat := fun _ => None;
     on_Remove := None |}.

(** The errors [Download] returns on these two. *)
Definition loadError : error :=
  Wrap "gphoto page load: " (External "context deadline exceeded").
Definition navigateError : error :=
  Wrap ("failed to navigate to photo " ++ Unix.Quote photoID ++ ": ")
       (External "net::ERR_NAME_NOT_RESOLVED").

(** The browser starts and the home tab stays on the sign-in page. *)
Definition signedOut : Startup :=
  {| on_Launch := None;
     on_Connect := None;
     on_HomePage := None;
     on_HomeLoad := None;
     on_Info := fun _ =>
       Ok "https://accounts.google.com/v3/signin/identifier" |}.

Definition fresh : Browser := {| tabs := []; next := 0 |}.

(** Two requests in flight, the first of which has locked the mutex. *)
Definition run1 : list Action :=
  calls (VariantB.Download Unix.library cfg ok g photoID b).
Definition run2 : list Action :=
  calls (VariantA.Download Unix.library cfg notFound g photoID b).
Definition locked : System :=
  {| mu := true;
     requests := [ {| made := [MuLock]; todo := tl run1 |};
                   {| made := []; todo := run2 |} ] |}.

End Example.

(** ** Notions used by the further properties *)

(** Every open tab is older than the tab the browser will create next. *)
Definition tabsBelowNext (b : Browser) : Prop :=
  forall t, In t (tabs b) -> t < next b.

(** The errors the browser and the file system answer with are their own:
    none holds an [httpError], a type of package main. *)
Definition foreign (err : option error) : Prop :=
  forall e, err = Some e -> As_httpError e = None.

Definition foreignErrors (env : Transport) : Prop :=
  foreign (on_Page env)
  /\ foreign (on_WaitDownload env)
  /\ foreign (on_Navigate env)
  /\ (forall t, foreign (on_WaitLoad env t))
  /\ foreign (on_KeyActions env)
  /\ (forall path, foreign (on_Stat env path)).

(** The same answers with another sequence of network responses. *)
Definition withEvents (env : Transport)
    (events : list NetworkResponseReceived) : Transport :=
  {| on_Page := on_Page env;
     on_Close := on_Close env;
     on_WaitDownload := on_WaitDownload env;
     on_Navigate := on_Navigate env;
     on_WaitLoad := on_WaitLoad env;
     on_events := events;
     on_KeyActions := on_KeyActions env;
     on_GUID := on_GUID env;
     on_Stat := on_Stat env;
     on_Remove := on_Remove env |}.

(** The browser is up and the home tab is loaded. *)
Definition startOK (env : Startup) : Prop :=
  on_Launch env = None /\ on_Connect env = None
  /\ on_HomePage env = None /\ on_HomeLoad env = None.


(** What [startBrowser] returns once the home tab is loaded, from how the
    loop ends. *)
Definition verdict (home : Tab) (r : option bool) : option (result Gphotos) :=
  match r with
  | None => None
  | Some false =>
      Some (Err (New "browser is not logged in - rerun with the -login flag"))
  | Some true => Some (Ok {| page := home |})
  end.

(** ** More runs used as examples *)

Module Sample.

Local Open Scope string_scope.

(** The third poll finds the home tab on the landing page. *)
Definition thirdPoll : Startup :=
  {| on_Launch := None;
     on_Connect := None;
     on_HomePage := None;
     on_HomeLoad := None;
     on_Info := fun k =>
       if (k <? 2)%nat
       then Ok "https://accounts.google.com/v3/signin/identifier"
       else Ok "https://photos.google.com/" |}.

(** The browser cannot be launched. *)
Definition noBrowser : Startup :=
  {| on_Launch := Some (External "fork/exec /usr/bin/chromium: no such file");
     on_Connect := None;
     on_HomePage := None;
     on_HomeLoad := None;
     on_Info := fun _ => Ok "https://photos.google.com/" |}.

(** The flags with [-login]. *)
Definition withLogin : Globals :=
  {| downloadDir := "/tmp/gphotosdl2517"; login := true; show := false |}.

End Sample.

(** ** The process: [config], [New], [Close] and [main]

    The flags are taken as parsed; the set-up of the logger is left out
    with the logging. *)

(** The flags. *)
Record Flags : Type := {
  flag_debug : bool;
  flag_login : bool;
  flag_show : bool;
  flag_addr : string;
  flag_json : bool
}.

(** The global variables [config] assigns. *)
Record Vars : Type := {
  configRoot : string;
  browserConfig : string;
  browserPath : string;
  var_downloadDir : string;
  browserPrefs : string
}.

(** What the operating system, the libraries and the browser answer to the
    process.  [on_startBrowser] and [on_fuel] serve the embedded
    [startBrowser]. *)
Record Host : Type := {
  on_UserConfigDir : result string;
  on_MkdirAll : option error;
  on_MkdirTemp : result string;
  on_LookPath : option string;
  on_Marshal : result string;
  on_RemoveAll : option error;
  on_BrowserClose : option error;
  on_startBrowser : Startup;
  on_fuel : nat
}.

(** The calls of the process: those of [startBrowser], and its own. *)
Inductive Call : Type :=
| Browse (a : Action)
| OsUserConfigDir (r : result string)
| OsMkdirAll (path : string) (perm : Z) (err : option error)
| OsMkdirTemp (dir pattern : string) (r : result string)
| LauncherLookPath (r : option string)
| JsonMarshal (default_directory : string) (r : result string)
| OsRemoveAll (path : string) (err : option error)
| HttpHandleFunc (pattern : string)
| GoListenAndServe (addr : string)
| BrowserClose (err : option error)
| SignalNotify
| SignalReceive.

(** The state of the process: its variables and its browser. *)
Record Process : Type := {
  vars : Vars;
  browser : Browser
}.

(** How a statement of the process ends: the process exits with a status
    ([os.Exit], [log.Fatal]), the function returns, the statement falls
    through, or the authentication loop is still running when the
    iterations looked at are used up. *)
Inductive End (R A : Type) : Type :=
| Exits (code : Z)
| Polling
| Returns (r : R)
| Falls (a : A).
Arguments Exits {R A} code.
Arguments Polling {R A}.
Arguments Returns {R A} r.
Arguments Falls {R A} a.

Definition Proc (R A : Type) : Type :=
  Process -> End R A * Process * list Call.

Definition fall {R A} (a : A) : Proc R A :=
  fun p => (Falls a, p, []).

Definition returns {R A} (r : R) : Proc R A :=
  fun p => (Returns r, p, []).

(** [os.Exit(code)]: nothing runs after it, deferred calls included. *)
Definition os_Exit {R A} (code : Z) : Proc R A :=
  fun p => (Exits code, p, []).

Definition andThen {R A B} (c : Proc R A) (k : A -> Proc R B) : Proc R B :=
  fun p =>
    match c p with
    | (Exits code, p1, t1) => (Exits code, p1, t1)
    | (Polling, p1, t1) => (Polling, p1, t1)
    | (Returns r, p1, t1) => (Returns r, p1, t1)
    | (Falls a, p1, t1) =>
        match k a p1 with
        | (e, p2, t2) => (e, p2, t1 ++ t2)
        end
    end.

(** [defer cleanup; rest]: [cleanup] runs when the function returns, not
    when the process exits. *)
Definition deferred {R A} (cleanup : Proc unit unit) (rest : Proc R A)
  : Proc R A :=
  fun p =>
    match rest p with
    | (Exits code, p1, t1) => (Exits code, p1, t1)
    | (Polling, p1, t1) => (Polling, p1, t1)
    | (e, p1, t1) =>
        match cleanup p1 with
        | (Exits code, p2, t2) => (Exits code, p2, t1 ++ t2)
        | (Polling, p2, t2) => (Polling, p2, t1 ++ t2)
        | (_, p2, t2) => (e, p2, t1 ++ t2)
        end
    end.

(** A call of a function of the process from another one. *)
Definition invoke {R A} (f : Proc A A) : Proc R A :=
  fun p =>
    match f p with
    | (Exits code, p1, t) => (Exits code, p1, t)
    | (Polling, p1, t) => (Polling, p1, t)
    | (Returns a, p1, t) => (Falls a, p1, t)
    | (Falls a, p1, t) => (Falls a, p1, t)
    end.

(** A call to the outside that leaves the process as it is. *)
Definition host {R A} (c : Call) (v : A) : Proc R A :=
  fun p => (Falls v, p, [c]).

Definition assign {R} (f : Vars -> Vars) : Proc R unit :=
  fun p => (Falls tt, {| vars := f (vars p); browser := browser p |}, []).

Definition read {R A} (f : Vars -> A) : Proc R A :=
  fun p => (Falls (f (vars p)), p, []).

Declare Scope proc_scope.
Delimit Scope proc_scope with proc.
Notation "x <- c ;; k" := (andThen c (fun x => k))
  (at level 61, c at next level, right associativity) : proc_scope.
Notation "c ;; k" := (andThen c (fun _ => k))
  (at level 61, right associativity) : proc_scope.
Notation "'Defer' c ;; k" := (deferred c k)
  (at level 61, c at next level, right associativity) : proc_scope.

(** The value a call that returns [(string, error)] gives with an error. *)
Definition valueOf (r : result string) : string :=
  match r with
  | Ok v => v
  | Err _ => ""
  end.

Module Process.

Section TheProcess.

Variable lib : Library.
Variable flags : Flags.
Variable h : Host.

(** The two variants differ in the download directory written in the
    preferences of the browser, and in [startBrowser]. *)
Variable default_directory : string -> string.
Variable startBrowser :
  Globals -> Startup -> nat -> Func (option (result Gphotos)).

Local Open Scope string_scope.
Local Open Scope proc_scope.

Definition removeDownloadDirectory : Proc unit unit :=
  downloadDir <- read var_downloadDir ;;
  if String.eqb downloadDir "" then returns tt
  else
    host (OsRemoveAll downloadDir (on_RemoveAll h)) tt ;;
    returns tt.

(** The permission [0700] is 448. *)
Definition config : Proc (option error) (option error) :=
  r <- host (OsUserConfigDir (on_UserConfigDir h)) (on_UserConfigDir h) ;;
  assign (fun v =>
    {| configRoot := valueOf r;
       browserConfig := browserConfig v;
       browserPath := browserPath v;
       var_downloadDir := var_downloadDir v;
       browserPrefs := browserPrefs v |}) ;;
  match r with
  | Err err => returns (Some (Wrap "didn't find config directory: " err))
  | Ok _ => fall tt
  end ;;
  assign (fun v =>
    {| configRoot := Join lib (configRoot v) program;
       browserConfig := browserConfig v;
       browserPath := browserPath v;
       var_downloadDir := var_downloadDir v;
       browserPrefs := browserPrefs v |}) ;;
  assign (fun v =>
    {| configRoot := configRoot v;
       browserConfig := Join lib (configRoot v) "browser";
       browserPath := browserPath v;
       var_downloadDir := var_downloadDir v;
       browserPrefs := browserPrefs v |}) ;;
  dir <- read browserConfig ;;
  err <- host (OsMkdirAll dir 448 (on_MkdirAll h)) (on_MkdirAll h) ;;
  match err with
  | Some err => returns (Some (Wrap "config directory creation: " err))
  | None => fall tt
  end ;;
  r <- host (OsMkdirTemp "" program (on_MkdirTemp h)) (on_MkdirTemp h) ;;
  assign (fun v =>
    {| configRoot := configRoot v;
       browserConfig := browserConfig v;
       browserPath := browserPath v;
       var_downloadDir := valueOf r;
       browserPrefs := browserPrefs v |}) ;;
  match r with
  | Err _ => os_Exit 1
  | Ok _ => fall tt
  end ;;
  found <- host (LauncherLookPath (on_LookPath h)) (on_LookPath h) ;;
  assign (fun v =>
    {| configRoot := configRoot v;
       browserConfig := browserConfig v;
       browserPath := match found with Some path => path | None => "" end;
       var_downloadDir := var_downloadDir v;
       browserPrefs := browserPrefs v |}) ;;
  match found with
  | None => returns (Some (New "browser not found"))
  | Some _ => fall tt
  end ;;
  downloadDir <- read var_downloadDir ;;
  r <- host (JsonMarshal (default_directory downloadDir) (on_Marshal h))
            (on_Marshal h) ;;
  match r with
  | Err err => returns (Some (Wrap "failed to make preferences: " err))
  | Ok prefJSON =>
      assign (fun v =>
        {| configRoot := configRoot v;
           browserConfig := browserConfig v;
           browserPath := browserPath v;
           var_downloadDir := var_downloadDir v;
           browserPrefs := prefJSON |}) ;;
      returns None
  end.

(** [g.startBrowser()] within the process: its calls are those of
    [startBrowser] on the flags and on [downloadDir]. *)
Definition g_startBrowser {R} : Proc R (result Gphotos) :=
  fun p =>
    match startBrowser
            {| downloadDir := var_downloadDir (vars p);
               login := flag_login flags;
               show := flag_show flags |}
            (on_startBrowser h) (on_fuel h) (browser p) with
    | (None, b, t) =>
        (Polling, {| vars := vars p; browser := b |}, map Browse t)
    | (Some r, b, t) =>
        (Falls r, {| vars := vars p; browser := b |}, map Browse t)
    end.

(** The goroutine that runs [http.ListenAndServe] is started; what it does
    is not part of the run. *)
Definition startServer : Proc (option error) (option error) :=
  host (HttpHandleFunc "GET /") tt ;;
  host (HttpHandleFunc "GET /id/{photoID}") tt ;;
  host (GoListenAndServe (flag_addr flags)) tt ;;
  returns None.

Definition New : Proc (result Gphotos) (result Gphotos) :=
  r <- g_startBrowser ;;
  match r with
  | Err err => returns (Err err)
  | Ok g =>
      err <- invoke startServer ;;
      match err with
      | Some err => returns (Err err)
      | None => returns (Ok g)
      end
  end.

(** [g.Close()]: when the browser closes, none of its tabs is open. *)
Definition Close (g : Gphotos) : Proc unit unit :=
  fun p =>
    (Returns tt,
     match on_BrowserClose h with
     | Some _ => p
     | None =>
         {| vars := vars p;
            browser := {| tabs := []; next := next (browser p) |} |}
     end,
     [BrowserClose (on_BrowserClose h)]).

Definition main : Proc unit unit :=
  err <- invoke config ;;
  match err with
  | Some _ => os_Exit 2
  | None => fall tt
  end ;;
  Defer removeDownloadDirectory ;;
  r <- invoke New ;;
  match r with
  | Err _ => os_Exit 2
  | Ok g =>
      Defer (Close g) ;;
      host SignalNotify tt ;;
      host SignalReceive tt ;;
      returns tt
  end.

End TheProcess.

End Process.

(** The process of variant A: the preferences name the download
    directory. *)
Module ProcessA.

Definition config (lib : Library) (h : Host)
  : Proc (option error) (option error) :=
  Process.config lib h (fun downloadDir => downloadDir).

Definition New (flags : Flags) (h : Host)
  : Proc (result Gphotos) (result Gphotos) :=
  Process.New flags h VariantA.startBrowser.

Definition main (lib : Library) (flags : Flags) (h : Host)
  : Proc unit unit :=
  Process.main lib flags h (fun downloadDir => downloadDir) VariantA.startBrowser.

End ProcessA.

(** The process of variant B: the preferences name [/tmp/gphotos]. *)
Module ProcessB.

Definition config (lib : Library) (h : Host)
  : Proc (option error) (option error) :=
  Process.config lib h (fun _ => "/tmp/gphotos"%string).

Definition New (flags : Flags) (h : Host)
  : Proc (result Gphotos) (result Gphotos) :=
  Process.New flags h VariantB.startBrowser.

Definition main (lib : Library) (flags : Flags) (h : Host)
  : Proc unit unit :=
  Process.main lib flags h (fun _ => "/tmp/gphotos"%string) VariantB.startBrowser.

End ProcessB.

(** The process as it starts: no variable is set and the browser has no
    tab. *)
Definition boot : Process :=
  {| vars := {| configRoot := ""; browserConfig := ""; browserPath := "";
                var_downloadDir := ""; browserPrefs := "" |};
     browser := {| tabs := []; next := 0 |} |}.

(** How the process ends, and its calls. *)
Definition ending {R A} (run : End R A * Process * list Call) : End R A :=
  fst (fst run).
Definition final {R A} (run : End R A * Process * list Call) : Process :=
  snd (fst run).
Definition made_calls {R A} (run : End R A * Process * list Call)
  : list Call := snd run.

Module Machine.

Local Open Scope string_scope.

(** What [json.Marshal] gives for the preferences of variant A. *)
Definition prefJSON : string :=
  let q := String "034" EmptyString in
  "{" ++ q ++ "download" ++ q ++ ":{" ++ q ++ "default_directory" ++ q ++ ":"
  ++ q ++ "/tmp/gphotosdl2517" ++ q ++ "}}".

Definition flags : Flags :=
  {| flag_debug := false; flag_login := false; flag_show := false;
     flag_addr := "localhost:8282"; flag_json := false |}.

(** Everything works and the user is signed in at the third poll. *)
Definition good : Host :=
  {| on_UserConfigDir := Ok "/home/u/.config";
     on_MkdirAll := None;
     on_MkdirTemp := Ok "/tmp/gphotosdl2517";
     on_LookPath := Some "/usr/bin/chromium";
     on_Marshal := Ok prefJSON;
     on_RemoveAll := None;
     on_BrowserClose := None;
     on_startBrowser := Sample.thirdPoll;
     on_fuel := 60 |}.

(** The user is not signed in. *)
Definition signedOut : Host :=
  {| on_UserConfigDir := Ok "/home/u/.config";
     on_MkdirAll := None;
     on_MkdirTemp := Ok "/tmp/gphotosdl2517";
     on_LookPath := Some "/usr/bin/chromium";
     on_Marshal := Ok prefJSON;
     on_RemoveAll := None;
     on_BrowserClose := None;
     on_startBrowser := Example.signedOut;
     on_fuel := 60 |}.

(** No browser is installed. *)
Definition noBrowser : Host :=
  {| on_UserConfigDir := Ok "/home/u/.config";
     on_MkdirAll := None;
     on_MkdirTemp := Ok "/tmp/gphotosdl2517";
     on_LookPath := None;
     on_Marshal := Ok prefJSON;
     on_RemoveAll := None;
     on_BrowserClose := None;
     on_startBrowser := Sample.thirdPoll;
     on_fuel := 60 |}.

End Machine.

(** The calls the requests in flight have yet to make. *)
Definition remaining (s : System) : nat :=
  list_sum (map (fun r => length (todo r)) (requests s)).

(** * Properties *)

Local Open Scope string_scope.
Local Arguments String.append : simpl never.

(** ** Running the program on unknown answers *)

Ltac unfold_run :=
  unfold VariantA.getID, VariantB.getID, VariantA.Download, VariantB.Download,
         value, after, calls, responses,
         func, bind, defer, call, check, ret, return_, outside,
         mu_Lock, mu_Unlock, browser_Page, page_Close, page_Navigate,
         page_WaitLoad, page_WaitDownload, browser_WaitDownload,
         page_KeyActions, wait, time_Sleep, os_Stat, os_Remove,
         page_EachEvent, waitNetwork, g_page in *.

(** The terms a run is stuck on: what the outside answers. *)
Ltac answer x :=
  lazymatch x with
  | on_Page _ => idtac
  | on_Close _ => idtac
  | on_WaitDownload _ => idtac
  | on_Navigate _ => idtac
  | on_WaitLoad _ _ => idtac
  | eachEvent _ _ _ => idtac
  | on_KeyActions _ => idtac
  | on_Stat _ _ => idtac
  | on_Remove _ => idtac
  | negb _ => idtac
  | Nat.eq_dec _ _ => idtac
  end.

(** One goal for each path through the function. *)
Ltac paths :=
  unfold_run; cbn;
  repeat match goal with
         | |- context [match ?x with _ => _ end] =>
             answer x; destruct x eqn:?; cbn
         end.

(** A call known to be in an explicit trace is one of its elements. *)
Ltac in_trace :=
  repeat match goal with
         | H : _ \/ _ |- _ => destruct H
         | H : False |- _ => destruct H
         | H : @eq Action ?x ?y |- _ =>
             first [ is_var y; subst y
                   | is_var x; subst x
                   | discriminate H
                   | injection H as ?; subst ]
         end.

(** ** The network filter of variant B *)

(** The filter captures the first response from one of the two photo
    addresses, and nothing when there is none. *)
Lemma eachEvent_callback_find events :
  eachEvent VariantB.callback events None = find matchesB events.
Proof.
  induction events as [|e rest IH]; [reflexivity|].
  unfold matchesB, VariantB.callback in *. cbn [eachEvent find].
  destruct (HasPrefix (Response_URL e) gphotoURLReal); [reflexivity|].
  destruct (HasPrefix (Response_URL e) VariantB.gphotoURL); [reflexivity|].
  exact IH.
Qed.

Lemma eachEvent_callback_none events :
  (forall e, In e events -> matchesB e = false) ->
  eachEvent VariantB.callback events None = None.
Proof.
  intros H. rewrite eachEvent_callback_find.
  destruct (find matchesB events) as [e|] eqn:F; [|reflexivity].
  apply find_some in F. destruct F as [I M].
  rewrite (H e I) in M. discriminate M.
Qed.

Lemma eachEvent_callback_some events e :
  eachEvent VariantB.callback events None = Some e ->
  In e events /\ matchesB e = true.
Proof.
  rewrite eachEvent_callback_find. apply find_some.
Qed.

(** ** The download sequence *)

(** When every call succeeds and the first response from a photo address
    has status 200, variant B returns the file the completion event names. *)
Lemma VariantB_Download_succeeds lib cfg env g photoID b e :
  on_Page env = None ->
  on_Navigate env = None ->
  on_WaitLoad env (page g) = None ->
  find matchesB (on_events env) = Some e ->
  Response_Status e = 200%Z ->
  on_KeyActions env = None ->
  on_Stat env (Join lib (downloadDir cfg) (on_GUID env)) = None ->
  value (VariantB.Download lib cfg env g photoID b)
  = (Join lib (downloadDir cfg) (on_GUID env), None)
  /\ In (WaitNetwork (next b) (Some e))
        (calls (VariantB.Download lib cfg env g photoID b))
  /\ In (WaitDownload (on_GUID env))
        (calls (VariantB.Download lib cfg env g photoID b)).
Proof.
  rewrite <- eachEvent_callback_find.
  paths; intros; try discriminate;
    repeat match goal with
           | H : Some _ = Some _ |- _ => injection H as ?; subst
           | H : negb (_ =? _)%Z = true |- _ =>
               apply negb_true_iff, Z.eqb_neq in H
           end;
    try contradiction;
    repeat split; cbn; tauto.
Qed.

(** When every call succeeds, variant A returns the file the completion
    event names. *)
Lemma VariantA_Download_succeeds lib cfg env g photoID b :
  on_Page env = None ->
  on_WaitDownload env = None ->
  on_Navigate env = None ->
  on_WaitLoad env (next b) = None ->
  on_KeyActions env = None ->
  on_Stat env (Join lib (downloadDir cfg) (on_GUID env)) = None ->
  value (VariantA.Download lib cfg env g photoID b)
  = (Join lib (downloadDir cfg) (on_GUID env), None)
  /\ In (WaitDownload (on_GUID env))
        (calls (VariantA.Download lib cfg env g photoID b)).
Proof.
  paths; intros; try discriminate; split; cbn; tauto.
Qed.

(** C1.  When the filter captured a response with status 200, the
    download-completion event names the file [F] and [os.Stat] finds
    [filepath.Join(downloadDir, F)], [Download] returns that path and no
    error.  Variant A has no filter: there the completion event and the
    file are enough. *)
Theorem Download_returns_the_downloaded_file
    lib cfg env g photoID b (F : string) :
  on_Stat env (Join lib (downloadDir cfg) F) = None ->
  (forall t e,
     In (WaitNetwork t (Some e))
        (calls (VariantB.Download lib cfg env g photoID b)) ->
     matchesB e = true ->
     Response_Status e = 200%Z ->
     In (WaitDownload F) (calls (VariantB.Download lib cfg env g photoID b)) ->
     value (VariantB.Download lib cfg env g photoID b)
     = (Join lib (downloadDir cfg) F, None))
  /\
  (In (WaitDownload F) (calls (VariantA.Download lib cfg env g photoID b)) ->
   value (VariantA.Download lib cfg env g photoID b)
   = (Join lib (downloadDir cfg) F, None)).
Proof.
  intros S. split.
  - intros t e. revert S.
    paths; intros; in_trace; congruence.
  - revert S.
    paths; intros; in_trace; congruence.
Qed.

Lemma Download_returns_the_downloaded_file_witness :
  on_Stat Example.ok (Join Unix.library (downloadDir Example.cfg) Example.guid)
  = None
  /\ value (VariantB.Download Unix.library Example.cfg Example.ok Example.g
              Example.photoID Example.b)
     = ("/tmp/gphotosdl2517/0b3c9f46-6f0e-4a57-9d54-5a1f0c2e8d11", None)
  /\ value (VariantA.Download Unix.library Example.cfg Example.ok Example.g
              Example.photoID Example.b)
     = ("/tmp/gphotosdl2517/0b3c9f46-6f0e-4a57-9d54-5a1f0c2e8d11", None).
Proof.
  split; [reflexivity|].
  destruct (Download_returns_the_downloaded_file
              Unix.library Example.cfg Example.ok Example.g
              Example.photoID Example.b Example.guid eq_refl) as [B A].
  split.
  - rewrite (B 1 (Example.response
                    ("https://photos.google.com/photo/" ++ Example.photoID)
                    200)).
    + reflexivity.
    + vm_compute. tauto.
    + reflexivity.
    + reflexivity.
    + vm_compute. tauto.
  - rewrite A.
    + reflexivity.
    + vm_compute. tauto.
Defined.

(** C2.  In variant B, when the response captured by the filter has a
    status [s] other than 200, [Download] returns an error that wraps
    [httpError(s)], and [getID] answers with [WriteHeader(s)] and nothing
    else. *)
Theorem upstream_status_is_reflected lib cfg env g photoID b t e :
  In (WaitNetwork t (Some e))
     (calls (VariantB.Download lib cfg env g photoID b)) ->
  Response_Status e <> 200%Z ->
  value (VariantB.Download lib cfg env g photoID b)
  = ("", Some (Wrap "gphoto fetch failed: " (httpError (Response_Status e))))
  /\ As_httpError (Wrap "gphoto fetch failed: " (httpError (Response_Status e)))
     = Some (Response_Status e)
  /\ responses (calls (VariantB.getID lib cfg env g photoID b))
     = [WriteHeader (Response_Status e)].
Proof.
  paths; intros; in_trace;
    repeat match goal with
           | H : Some _ = Some _ |- _ => injection H as ?; subst
           | H : negb (_ =? _)%Z = false |- _ =>
               apply negb_false_iff, Z.eqb_eq in H
           end;
    try congruence; auto.
Qed.

Lemma upstream_status_is_reflected_witness :
  In (WaitNetwork 1 (Some (Example.response
        ("https://photos.google.com/lr/photo/" ++ Example.photoID) 404)))
     (calls (VariantB.Download Unix.library Example.cfg Example.notFound
               Example.g Example.photoID Example.b))
  /\ 404%Z <> 200%Z
  /\ value (VariantB.Download Unix.library Example.cfg Example.notFound
              Example.g Example.photoID Example.b)
     = ("", Some (Wrap "gphoto fetch failed: " (httpError 404)))
  /\ responses (calls (VariantB.getID Unix.library Example.cfg Example.notFound
                         Example.g Example.photoID Example.b))
     = [WriteHeader 404].
Proof.
  assert (I : In (WaitNetwork 1 (Some (Example.response
                    ("https://photos.google.com/lr/photo/" ++ Example.photoID)
                    404)))
                 (calls (VariantB.Download Unix.library Example.cfg
                           Example.notFound Example.g Example.photoID
                           Example.b))) by (vm_compute; tauto).
  assert (N : 404%Z <> 200%Z) by discriminate.
  destruct (upstream_status_is_reflected _ _ _ _ _ _ _ _ I N) as [V [_ W]].
  split; [exact I|]. split; [exact N|]. split; [exact V | exact W].
Defined.

(** C3, as the code has it.  In variant B, when the wait for the network
    response is reached and no response comes from either photo address,
    [Download] returns the error made by [errors.New], which holds no
    status, and [getID] answers with [WriteHeader(500)]. *)
Theorem no_network_response_is_a_server_error lib cfg env g photoID b t r :
  (forall e, In e (on_events env) -> matchesB e = false) ->
  In (WaitNetwork t r) (calls (VariantB.Download lib cfg env g photoID b)) ->
  value (VariantB.Download lib cfg env g photoID b)
  = ("", Some (New
       "did not receive the expected network response for the photo"))
  /\ responses (calls (VariantB.getID lib cfg env g photoID b))
     = [WriteHeader StatusInternalServerError].
Proof.
  intros M. apply eachEvent_callback_none in M. revert M.
  paths; intros; in_trace; try congruence; auto.
Qed.

Lemma no_network_response_is_a_server_error_witness :
  (forall e, In e (on_events Example.noMatch) -> matchesB e = false)
  /\ In (WaitNetwork 1 None)
        (calls (VariantB.Download Unix.library Example.cfg Example.noMatch
                  Example.g Example.photoID Example.b))
  /\ responses (calls (VariantB.getID Unix.library Example.cfg Example.noMatch
                         Example.g Example.photoID Example.b))
     = [WriteHeader 500].
Proof.
  assert (M : forall e, In e (on_events Example.noMatch) -> matchesB e = false).
  { intros e [E|[E|[]]]; subst e; reflexivity. }
  assert (I : In (WaitNetwork 1 None)
                 (calls (VariantB.Download Unix.library Example.cfg
                           Example.noMatch Example.g Example.photoID
                           Example.b))) by (vm_compute; tauto).
  split; [exact M|]. split; [exact I|].
  exact (proj2 (no_network_response_is_a_server_error _ _ _ _ _ _ _ _ M I)).
Defined.

(** C3, as stated, fails: with no response from either photo address the
    answer of [getID] is not [WriteHeader(404)]. *)
Lemma no_network_response_is_not_answered_404 :
  (forall e, In e (on_events Example.noMatch) -> matchesB e = false)
  /\ In (WaitNetwork 1 None)
        (calls (VariantB.Download Unix.library Example.cfg Example.noMatch
                  Example.g Example.photoID Example.b))
  /\ responses (calls (VariantB.getID Unix.library Example.cfg Example.noMatch
                         Example.g Example.photoID Example.b))
     <> [WriteHeader 404].
Proof.
  split.
  - intros e [E|[E|[]]]; subst e; reflexivity.
  - split.
    + vm_compute. tauto.
    + vm_compute. discriminate.
Qed.

(** C10.  Whatever the string [photoID] is, the only URL [Download]
    navigates to is [gphotoURL] followed by it, unchanged; and it does
    navigate there as soon as the tab is open (and, in variant A, the
    download waiter is set up): no path rejects an identifier. *)
Theorem Download_navigates_to_the_raw_concatenation
    lib cfg env g (photoID : string) b :
  (forall t url err,
     In (PageNavigate t url err)
        (calls (VariantA.Download lib cfg env g photoID b)) ->
     url = VariantA.gphotoURL ++ photoID)
  /\ (forall t url err,
        In (PageNavigate t url err)
           (calls (VariantB.Download lib cfg env g photoID b)) ->
        url = VariantB.gphotoURL ++ photoID)
  /\ (on_Page env = None -> on_WaitDownload env = None ->
      In (PageNavigate (next b) (VariantA.gphotoURL ++ photoID)
            (on_Navigate env))
         (calls (VariantA.Download lib cfg env g photoID b)))
  /\ (on_Page env = None ->
      In (PageNavigate (next b) (VariantB.gphotoURL ++ photoID)
            (on_Navigate env))
         (calls (VariantB.Download lib cfg env g photoID b))).
Proof.
  repeat split.
  - paths; intros; in_trace; reflexivity.
  - paths; intros; in_trace; reflexivity.
  - paths; intros; try discriminate; cbn; tauto.
  - paths; intros; try discriminate; cbn; tauto.
Qed.

Lemma Download_navigates_to_the_raw_concatenation_witness :
  In (PageNavigate 1 "https://photos.google.com/photo/" None)
     (calls (VariantA.Download Unix.library Example.cfg Example.ok Example.g
               "" Example.b))
  /\ In (PageNavigate 1 "https://photos.google.com/lr/photo/../a/b?c#d" None)
        (calls (VariantB.Download Unix.library Example.cfg Example.ok
                  Example.g "../a/b?c#d" Example.b)).
Proof.
  split.
  - exact (proj1 (proj2 (proj2
      (Download_navigates_to_the_raw_concatenation
         Unix.library Example.cfg Example.ok Example.g "" Example.b)))
      eq_refl eq_refl).
  - exact (proj2 (proj2 (proj2
      (Download_navigates_to_the_raw_concatenation
         Unix.library Example.cfg Example.ok Example.g "../a/b?c#d"
         Example.b)))
      eq_refl).
Defined.

(** ** The authentication test *)

(** Variant B's test implies variant A's. *)
Lemma authenticated_B_implies_A url :
  VariantB.authenticated url = true -> VariantA.authenticated url = true.
Proof.
  unfold VariantB.authenticated, VariantA.authenticated, HasPrefix.
  intros E. apply String.eqb_eq in E. subst url. reflexivity.
Qed.

(** C8.  The two tests differ: on a URL below the landing address, variant
    A's prefix test accepts and variant B's equality test rejects, so the
    two are not the same function. *)
Theorem authentication_tests_disagree :
  (exists url, VariantA.authenticated url = true
               /\ VariantB.authenticated url = false)
  /\ ~ (forall url, VariantA.authenticated url = VariantB.authenticated url).
Proof.
  assert (D : VariantA.authenticated "https://photos.google.com/u/1/" = true
              /\ VariantB.authenticated "https://photos.google.com/u/1/"
                 = false)
    by (split; reflexivity).
  split.
  - exists "https://photos.google.com/u/1/". exact D.
  - intros E. destruct D as [A B]. rewrite E, B in A. discriminate A.
Qed.

(** ** What the errors of [Download] say *)

Lemma prefix_append s t : String.prefix s (s ++ t) = true.
Proof.
  induction s as [|c s IH]; [destruct t; reflexivity|].
  change (String c s ++ t) with (String c (s ++ t)).
  cbn [String.prefix]. destruct (ascii_dec c c); [exact IH | contradiction].
Qed.

Lemma Contains_prefix s sub :
  String.prefix sub s = true -> Contains s sub = true.
Proof.
  intros P. destruct s; cbn [Contains]; rewrite P; reflexivity.
Qed.

Lemma Contains_append pre sub post : Contains (pre ++ sub ++ post) sub = true.
Proof.
  induction pre as [|c pre IH].
  - change ("" ++ sub ++ post) with (sub ++ post).
    apply Contains_prefix, prefix_append.
  - change (String c pre ++ sub ++ post) with (String c (pre ++ sub ++ post)).
    cbn [Contains]. rewrite IH. apply orb_true_r.
Qed.

Lemma prefix_split sub : forall s,
  String.prefix sub s = true -> exists post, s = sub ++ post.
Proof.
  induction sub as [|a sub IH]; intros s P.
  - exists s. reflexivity.
  - destruct s as [|c s]; [discriminate P|].
    cbn [String.prefix] in P.
    destruct (ascii_dec a c) as [<-|]; [|discriminate P].
    destruct (IH s P) as [post ->]. exists post. reflexivity.
Qed.

(** [Contains] is true exactly when the string is made of something, the
    substring, and something. *)
Lemma Contains_iff s sub :
  Contains s sub = true <-> exists pre post, s = pre ++ sub ++ post.
Proof.
  split.
  - induction s as [|c s IH]; cbn [Contains]; intros C.
    + rewrite orb_false_r in C. destruct (prefix_split _ _ C) as [post E].
      exists "", post. exact E.
    + apply orb_true_iff in C. destruct C as [P|C].
      * destruct (prefix_split _ _ P) as [post E]. exists "", post. exact E.
      * destruct (IH C) as [pre [post ->]].
        exists (String c pre), post. reflexivity.
  - intros [pre [post ->]]. apply Contains_append.
Qed.

Lemma append_assoc (s t u : string) : (s ++ t) ++ u = s ++ t ++ u.
Proof.
  induction s as [|c s IH]; [reflexivity|].
  change (String c ((s ++ t) ++ u) = String c (s ++ t ++ u)).
  rewrite IH. reflexivity.
Qed.

Lemma Contains_wrapped pre sub post e :
  Contains (Error (Wrap (pre ++ sub ++ post) e)) sub = true.
Proof.
  cbn [Error]. rewrite !append_assoc. apply Contains_append.
Qed.

Ltac names_the_photo :=
  paths; intros V [P | [t [url [e' I]]]]; in_trace;
  try congruence;
  injection V as ? ?; subst;
  try apply Contains_wrapped.

Lemma VariantA_names_the_photo lib cfg env g photoID b path err :
  value (VariantA.Download lib cfg env g photoID b) = (path, Some err) ->
  (on_Page env <> None
   \/ exists t url e,
        In (PageNavigate t url (Some e))
           (calls (VariantA.Download lib cfg env g photoID b))) ->
  Contains (Error err) (Quote lib photoID) = true.
Proof. names_the_photo. Qed.

Lemma VariantB_names_the_photo lib cfg env g photoID b path err :
  value (VariantB.Download lib cfg env g photoID b) = (path, Some err) ->
  (on_Page env <> None
   \/ exists t url e,
        In (PageNavigate t url (Some e))
           (calls (VariantB.Download lib cfg env g photoID b))) ->
  Contains (Error err) (Quote lib photoID) = true.
Proof. names_the_photo. Qed.

(** C9, as the code has it.  In both variants, when [Download] fails
    because the tab cannot be opened or because the navigation fails, the
    message of the error it returns contains the photo identifier as [%q]
    renders it. *)
Theorem open_and_navigate_errors_name_the_photo
    lib cfg env g photoID b path err :
  (value (VariantA.Download lib cfg env g photoID b) = (path, Some err) ->
   (on_Page env <> None
    \/ exists t url e,
         In (PageNavigate t url (Some e))
            (calls (VariantA.Download lib cfg env g photoID b))) ->
   Contains (Error err) (Quote lib photoID) = true)
  /\
  (value (VariantB.Download lib cfg env g photoID b) = (path, Some err) ->
   (on_Page env <> None
    \/ exists t url e,
         In (PageNavigate t url (Some e))
            (calls (VariantB.Download lib cfg env g photoID b))) ->
   Contains (Error err) (Quote lib photoID) = true).
Proof.
  split.
  - apply VariantA_names_the_photo.
  - apply VariantB_names_the_photo.
Qed.

Lemma open_and_navigate_errors_name_the_photo_witness :
  value (VariantB.Download Unix.library Example.cfg Example.navigateFails
           Example.g Example.photoID Example.b)
  = ("", Some Example.navigateError)
  /\ In (PageNavigate 1 ("https://photos.google.com/lr/photo/"
                            ++ Example.photoID)
           (Some (External "net::ERR_NAME_NOT_RESOLVED")))
        (calls (VariantB.Download Unix.library Example.cfg
                  Example.navigateFails Example.g Example.photoID Example.b))
  /\ Contains (Error Example.navigateError) (Unix.Quote Example.photoID)
     = true
  /\ Contains (Error Example.navigateError) Example.photoID = true.
Proof.
  assert (V : value (VariantB.Download Unix.library Example.cfg
                       Example.navigateFails Example.g Example.photoID
                       Example.b)
              = ("", Some Example.navigateError)) by reflexivity.
  assert (I : In (PageNavigate 1 ("https://photos.google.com/lr/photo/"
                                    ++ Example.photoID)
                    (Some (External "net::ERR_NAME_NOT_RESOLVED")))
                 (calls (VariantB.Download Unix.library Example.cfg
                           Example.navigateFails Example.g Example.photoID
                           Example.b))) by (vm_compute; tauto).
  split; [exact V|]. split; [exact I|]. split; [|reflexivity].
  apply (proj2 (open_and_navigate_errors_name_the_photo
                  Unix.library Example.cfg Example.navigateFails Example.g
                  Example.photoID Example.b "" Example.navigateError) V).
  right. exists 1, ("https://photos.google.com/lr/photo/" ++ Example.photoID),
    (External "net::ERR_NAME_NOT_RESOLVED"). exact I.
Defined.

(** C9, as stated, fails: when the wait for the end of the page load
    fails, the error returned by either variant does not contain the photo
    identifier. *)
Lemma page_load_error_does_not_name_the_photo :
  value (VariantA.Download Unix.library Example.cfg Example.loadFails
           Example.g Example.photoID Example.b)
  = ("", Some Example.loadError)
  /\ value (VariantB.Download Unix.library Example.cfg Example.loadFails
              Example.g Example.photoID Example.b)
     = ("", Some Example.loadError)
  /\ Error Example.loadError = "gphoto page load: context deadline exceeded"
  /\ Contains (Error Example.loadError) Example.photoID = false.
Proof.
  repeat split; vm_compute; reflexivity.
Qed.

(** ** The authentication loop *)

(** When none of the polls left shows a URL that passes the test, the
    bounded loop ends after all of them, not authenticated. *)
Lemma authLoop_never landed cfg env (R : Type) :
  login cfg = false ->
  forall n fuel try home auth b,
    try + n = 60 -> n <= fuel ->
    (forall k url, try <= k < 60 -> on_Info env k = Ok url ->
                   landed url = false) ->
    exists t,
      @authLoop landed cfg env R fuel try home auth b
      = (Next (Some auth), b, t)
      /\ polls t = n.
Proof.
  intros L. induction n as [|n IH]; intros fuel try home auth b E F N.
  - assert (try = 60) by lia. subst try.
    exists nil. split; [|reflexivity].
    destruct fuel; cbn; rewrite L; reflexivity.
  - destruct fuel as [|fuel]; [lia|].
    assert (T : (try <? 60)%nat = true) by (apply Nat.ltb_lt; lia).
    cbn [authLoop]. rewrite L, T. cbn [orb].
    destruct (IH fuel (S try) home auth b) as [t [Run P]];
      [lia | lia | intros k url K; apply N; lia |].
    unfold bind, call, time_Sleep, page_Info, outside.
    destruct (on_Info env try) as [url|e] eqn:I.
    + rewrite (N try url) by (lia || exact I).
      rewrite Run. eexists. split; [reflexivity|].
      cbn. unfold polls in P. rewrite P. reflexivity.
    + rewrite Run. eexists. split; [reflexivity|].
      cbn. unfold polls in P. rewrite P. reflexivity.
Qed.

(** When poll [try + n] is the first to show a URL that passes the test,
    the loop ends there, authenticated, after [n + 1] polls; with [-login]
    this holds however late the poll is. *)
Lemma authLoop_lands landed cfg env (R : Type) :
  forall n fuel try home auth b url,
    login cfg = true \/ try + n < 60 ->
    n < fuel ->
    (forall k u, try <= k < try + n -> on_Info env k = Ok u ->
                 landed u = false) ->
    on_Info env (try + n) = Ok url -> landed url = true ->
    exists t,
      @authLoop landed cfg env R fuel try home auth b
      = (Next (Some true), b, t)
      /\ polls t = S n.
Proof.
  induction n as [|n IH]; intros fuel try home auth b url C F N I Y;
    (destruct fuel as [|fuel]; [lia|]);
    assert (T : login cfg || (try <? 60)%nat = true)
      by (destruct C as [-> | C]; [reflexivity|];
          apply orb_true_iff; right; apply Nat.ltb_lt; lia);
    cbn [authLoop]; rewrite T;
    unfold bind, call, time_Sleep, page_Info, outside.
  - rewrite Nat.add_0_r in I. rewrite I, Y.
    eexists. split; reflexivity.
  - destruct (IH fuel (S try) home auth b url) as [t [Run P]];
      [ destruct C; [left; assumption | right; lia]
      | lia
      | intros k u K; apply N; lia
      | rewrite <- I; f_equal; lia
      | exact Y | ].
    destruct (on_Info env try) as [u|e] eqn:E.
    + rewrite (N try u) by (lia || exact E).
      rewrite Run. eexists. split; [reflexivity|].
      cbn. unfold polls in P. rewrite P. reflexivity.
    + rewrite Run. eexists. split; [reflexivity|].
      cbn. unfold polls in P. rewrite P. reflexivity.
Qed.

Lemma startBrowserWith_not_logged_in loginURL landed cfg env fuel b :
  login cfg = false ->
  on_Launch env = None -> on_Connect env = None ->
  on_HomePage env = None -> on_HomeLoad env = None ->
  (forall k url, k < 60 -> on_Info env k = Ok url -> landed url = false) ->
  60 <= fuel ->
  value (startBrowserWith loginURL landed cfg env fuel b)
  = Some (Err (New "browser is not logged in - rerun with the -login flag"))
  /\ polls (calls (startBrowserWith loginURL landed cfg env fuel b)) = 60.
Proof.
  intros L La Co Hp Hl N F.
  destruct (authLoop_never landed cfg env (option (result Gphotos)) L
              60 fuel 0 (next b) false
              {| tabs := next b :: tabs b; next := S (next b) |})
    as [t [Run P]]; [lia | exact F | intros k url K; apply N; lia |].
  unfold startBrowserWith, func, bind, call, check, outside, browser_Page,
    page_WaitLoad, value, calls.
  rewrite La, Co, Hp, Hl, L. cbn. rewrite Run. cbn.
  split; [reflexivity | rewrite app_nil_r; exact P].
Qed.

(** C5.  Without [-login], once the browser is up and the home tab is
    loaded, if none of the sixty polls shows a URL that passes the test,
    [startBrowser] polls the home tab sixty times, no more and no fewer,
    and returns the error that the browser is not logged in; this holds in
    both variants, and for any number of iterations looked at from sixty
    on. *)
Theorem bounded_authentication_gives_up_after_sixty_polls cfg env fuel b :
  login cfg = false ->
  on_Launch env = None -> on_Connect env = None ->
  on_HomePage env = None -> on_HomeLoad env = None ->
  60 <= fuel ->
  ((forall k url, k < 60 -> on_Info env k = Ok url ->
                  VariantA.authenticated url = false) ->
   value (VariantA.startBrowser cfg env fuel b)
   = Some (Err (New "browser is not logged in - rerun with the -login flag"))
   /\ polls (calls (VariantA.startBrowser cfg env fuel b)) = 60)
  /\
  ((forall k url, k < 60 -> on_Info env k = Ok url ->
                  VariantB.authenticated url = false) ->
   value (VariantB.startBrowser cfg env fuel b)
   = Some (Err (New "browser is not logged in - rerun with the -login flag"))
   /\ polls (calls (VariantB.startBrowser cfg env fuel b)) = 60).
Proof.
  intros L La Co Hp Hl F. split; intros N.
  - apply startBrowserWith_not_logged_in; assumption.
  - apply startBrowserWith_not_logged_in; assumption.
Qed.

Lemma bounded_authentication_gives_up_after_sixty_polls_witness :
  (forall k url, k < 60 -> on_Info Example.signedOut k = Ok url ->
                 VariantA.authenticated url = false)
  /\ value (VariantA.startBrowser Example.cfg Example.signedOut 60
              Example.fresh)
     = Some (Err (New "browser is not logged in - rerun with the -login flag"))
  /\ polls (calls (VariantA.startBrowser Example.cfg Example.signedOut 60
                     Example.fresh)) = 60
  /\ polls (calls (VariantB.startBrowser Example.cfg Example.signedOut 75
                     Example.fresh)) = 60.
Proof.
  assert (A : forall k url, k < 60 -> on_Info Example.signedOut k = Ok url ->
                            VariantA.authenticated url = false).
  { intros k url _ E. injection E as <-. reflexivity. }
  assert (B : forall k url, k < 60 -> on_Info Example.signedOut k = Ok url ->
                            VariantB.authenticated url = false).
  { intros k url _ E. injection E as <-. reflexivity. }
  split; [exact A|].
  destruct (proj1 (bounded_authentication_gives_up_after_sixty_polls
                     Example.cfg Example.signedOut 60 Example.fresh
                     eq_refl eq_refl eq_refl eq_refl eq_refl (le_n 60)) A)
    as [V P].
  split; [exact V|]. split; [exact P|].
  refine (proj2 (proj2 (bounded_authentication_gives_up_after_sixty_polls
                          Example.cfg Example.signedOut 75 Example.fresh
                          eq_refl eq_refl eq_refl eq_refl eq_refl _) B)).
  lia.
Defined.

(** ** The ephemeral tab *)

Ltac split_last :=
  match goal with
  | |- exists pre, ?l = (pre ++ _)%list /\ _ =>
      exists (removelast (removelast l)); cbn; split; [reflexivity|]
  end.

Ltac closes_last :=
  paths; intros; in_trace;
  (split;
   [ split_last; intros err I; in_trace
   | intros C; try discriminate C; try apply remove_In;
     try (exfalso; congruence) ]).

Lemma VariantA_closes_the_tab lib cfg env g photoID b t url :
  In (BrowserPage url (Ok t))
     (calls (VariantA.Download lib cfg env g photoID b)) ->
  (exists pre,
     calls (VariantA.Download lib cfg env g photoID b)
     = (pre ++ [PageClose t (on_Close env); MuUnlock])%list
     /\ forall err, ~ In (PageClose t err) pre)
  /\ (on_Close env = None ->
      ~ In t (tabs (after (VariantA.Download lib cfg env g photoID b)))).
Proof. closes_last. Qed.

Lemma VariantB_closes_the_tab lib cfg env g photoID b t url :
  In (BrowserPage url (Ok t))
     (calls (VariantB.Download lib cfg env g photoID b)) ->
  (exists pre,
     calls (VariantB.Download lib cfg env g photoID b)
     = (pre ++ [PageClose t (on_Close env); MuUnlock])%list
     /\ forall err, ~ In (PageClose t err) pre)
  /\ (on_Close env = None ->
      ~ In t (tabs (after (VariantB.Download lib cfg env g photoID b)))).
Proof. closes_last. Qed.

(** C4.  In both variants, when the ephemeral tab [t] has been opened,
    [page.Close()] is called on it exactly once, as the last call before
    the mutex is unlocked and [Download] returns, whichever path is taken;
    and when the browser carries the call out the tab is no longer open
    when [Download] returns. *)
Theorem the_tab_is_closed_on_every_path lib cfg env g photoID b t url :
  (In (BrowserPage url (Ok t))
      (calls (VariantA.Download lib cfg env g photoID b)) ->
   (exists pre,
      calls (VariantA.Download lib cfg env g photoID b)
      = (pre ++ [PageClose t (on_Close env); MuUnlock])%list
      /\ forall err, ~ In (PageClose t err) pre)
   /\ (on_Close env = None ->
       ~ In t (tabs (after (VariantA.Download lib cfg env g photoID b)))))
  /\
  (In (BrowserPage url (Ok t))
      (calls (VariantB.Download lib cfg env g photoID b)) ->
   (exists pre,
      calls (VariantB.Download lib cfg env g photoID b)
      = (pre ++ [PageClose t (on_Close env); MuUnlock])%list
      /\ forall err, ~ In (PageClose t err) pre)
   /\ (on_Close env = None ->
       ~ In t (tabs (after (VariantB.Download lib cfg env g photoID b))))).
Proof.
  split.
  - apply VariantA_closes_the_tab.
  - apply VariantB_closes_the_tab.
Qed.

Lemma the_tab_is_closed_on_every_path_witness :
  In (BrowserPage "" (Ok 1))
     (calls (VariantB.Download Unix.library Example.cfg Example.notFound
               Example.g Example.photoID Example.b))
  /\ (exists pre,
        calls (VariantB.Download Unix.library Example.cfg Example.notFound
                 Example.g Example.photoID Example.b)
        = (pre ++ [PageClose 1 None; MuUnlock])%list
        /\ forall err, ~ In (PageClose 1 err) pre)
  /\ ~ In 1 (tabs (after (VariantB.Download Unix.library Example.cfg
                            Example.notFound Example.g Example.photoID
                            Example.b))).
Proof.
  assert (I : In (BrowserPage "" (Ok 1))
                 (calls (VariantB.Download Unix.library Example.cfg
                           Example.notFound Example.g Example.photoID
                           Example.b))) by (vm_compute; tauto).
  destruct (proj2 (the_tab_is_closed_on_every_path
                     Unix.library Example.cfg Example.notFound Example.g
                     Example.photoID Example.b 1 "") I) as [L C].
  split; [exact I|]. split; [exact L | exact (C eq_refl)].
Defined.

(** In variant A every call made on a tab is made on the ephemeral tab. *)
Lemma VariantA_works_on_the_ephemeral_tab lib cfg env g photoID b a t :
  In a (calls (VariantA.Download lib cfg env g photoID b)) ->
  tabOf a = Some t ->
  t = next b.
Proof.
  paths; intros; in_trace; cbn in *; congruence.
Qed.

(** In variant B every call made on a tab, the wait for the end of the page
    load apart, is made on the ephemeral tab. *)
Lemma VariantB_works_on_the_ephemeral_tab lib cfg env g photoID b a t :
  In a (calls (VariantB.Download lib cfg env g photoID b)) ->
  tabOf a = Some t ->
  (forall t' err, a <> PageWaitLoad t' err) ->
  t = next b.
Proof.
  paths; intros; in_trace; cbn in *; try congruence.
  all: exfalso; eapply H1; reflexivity.
Qed.

(** C6, what the code does.  In variant B, once the ephemeral tab is open
    and the navigation has succeeded, the wait for the end of the page load
    is made on the home tab [g.page]; no such wait is made on the ephemeral
    tab, which is a different tab. *)
Theorem VariantB_waits_for_the_load_of_the_home_tab lib cfg env g photoID b :
  page g < next b ->
  on_Page env = None ->
  on_Navigate env = None ->
  In (PageNavigate (next b) (VariantB.gphotoURL ++ photoID) None)
     (calls (VariantB.Download lib cfg env g photoID b))
  /\ In (PageWaitLoad (page g) (on_WaitLoad env (page g)))
        (calls (VariantB.Download lib cfg env g photoID b))
  /\ (forall err,
        ~ In (PageWaitLoad (next b) err)
             (calls (VariantB.Download lib cfg env g photoID b)))
  /\ page g <> next b.
Proof.
  intros L. assert (D : page g <> next b) by lia. revert D. clear L.
  paths; intros; try discriminate.
  all: repeat split; cbn; try tauto.
  all: intros err I; in_trace; congruence.
Qed.

Lemma VariantB_waits_for_the_load_of_the_home_tab_witness :
  In (PageWaitLoad 0 None)
     (calls (VariantB.Download Unix.library Example.cfg Example.ok Example.g
               Example.photoID Example.b))
  /\ (forall err,
        ~ In (PageWaitLoad 1 err)
             (calls (VariantB.Download Unix.library Example.cfg Example.ok
                       Example.g Example.photoID Example.b))).
Proof.
  assert (L : page Example.g < next Example.b) by (cbn; lia).
  destruct (VariantB_waits_for_the_load_of_the_home_tab
              Unix.library Example.cfg Example.ok Example.g Example.photoID
              Example.b L eq_refl eq_refl) as [_ [W [N _]]].
  split; [exact W | exact N].
Defined.

(** ** The mutex

    The statements of this part are about lists of calls. *)

Local Open Scope list_scope.

(** Every run of [Download] locks the mutex first, unlocks it last and
    leaves it alone in between. *)
Lemma Download_bracketed t : DownloadRun t -> bracketed t = true.
Proof.
  intros [lib cfg env g photoID b | lib cfg env g photoID b];
    paths; reflexivity.
Qed.

Lemma existsb_rev {A} (f : A -> bool) l : existsb f (rev l) = existsb f l.
Proof.
  induction l as [|x l IH]; [reflexivity|].
  cbn. rewrite existsb_app, IH. cbn. rewrite orb_false_r. apply orb_comm.
Qed.

Lemma bracketed_shape t :
  bracketed t = true ->
  exists body, t = MuLock :: body ++ [MuUnlock] /\ existsb isMutex body = false.
Proof.
  destruct t as [|a rest]; [discriminate|].
  destruct a; try discriminate. cbn [bracketed].
  destruct (rev rest) as [|z body] eqn:R; [discriminate|].
  destruct z; try discriminate. intros H.
  exists (rev body). split.
  - f_equal. rewrite <- (rev_involutive rest), R. reflexivity.
  - rewrite existsb_rev. apply negb_true_iff. exact H.
Qed.

Lemma no_mutex_no_unlock l :
  existsb isMutex l = false -> existsb isUnlock l = false.
Proof.
  induction l as [|a l IH]; [reflexivity|]. cbn. intros H.
  apply orb_false_iff in H. destruct H as [Ha Hl].
  rewrite (IH Hl). destruct a; try reflexivity; discriminate Ha.
Qed.

(** Where a request stands in its run. *)
Lemma bracketed_next m a rest :
  bracketed (m ++ a :: rest) = true ->
  (m = [] /\ a = MuLock /\ rest <> [])
  \/ (exists body, m = MuLock :: body /\ existsb isMutex body = false
                   /\ a = MuUnlock /\ rest = [])
  \/ (exists m' rest', m = MuLock :: m' /\ rest = rest' ++ [MuUnlock]
                   /\ existsb isMutex (m' ++ a :: rest') = false).
Proof.
  intros B. apply bracketed_shape in B. destruct B as [body [E N]].
  destruct m as [|x m'].
  - left. cbn in E. injection E as -> ->. repeat split.
    destruct body; discriminate.
  - right. cbn in E. injection E as -> E.
    destruct (exists_last (l := a :: rest)) as [front [z Z]]; [discriminate|].
    destruct rest as [|y rest].
    + left. exists m'.
      apply app_inj_tail in E. destruct E as [-> ->]. auto.
    + right.
      destruct (exists_last (l := y :: rest)) as [rest' [z' Z']];
        [discriminate|].
      exists m', rest'. rewrite Z' in E |- *.
      change (m' ++ a :: rest' ++ [z']) with (m' ++ (a :: rest') ++ [z']) in E.
      rewrite app_assoc in E. apply app_inj_tail in E.
      destruct E as [E ->]. rewrite E. auto.
Qed.

Lemma inside_split held before r behind :
  inside {| mu := held; requests := before ++ r :: behind |}
  = length (filter inSequence before)
    + (if inSequence r then 1 else 0)
    + length (filter inSequence behind).
Proof.
  unfold inside. cbn [requests].
  rewrite filter_app, length_app. cbn [filter].
  destruct (inSequence r); cbn [length]; lia.
Qed.

Lemma existsb_isMutex_app m a rest :
  existsb isMutex (m ++ a :: rest) = false ->
  existsb isMutex m = false /\ isMutex a = false.
Proof.
  rewrite existsb_app. cbn [existsb]. intros H.
  apply orb_false_iff in H. destruct H as [Hm H].
  apply orb_false_iff in H. tauto.
Qed.

Lemma inSequence_locked body td :
  existsb isMutex body = false ->
  inSequence {| made := MuLock :: body; todo := td |} = true.
Proof.
  intros N. unfold inSequence. cbn.
  rewrite (no_mutex_no_unlock _ N). reflexivity.
Qed.

Lemma inSequence_unlocked body td :
  inSequence {| made := (MuLock :: body) ++ [MuUnlock]; todo := td |} = false.
Proof.
  unfold inSequence. cbn [made app existsb isLock isUnlock orb andb].
  rewrite existsb_app. cbn. rewrite orb_true_r. reflexivity.
Qed.

Lemma step_invariant s s' : invariant s -> step s s' -> invariant s'.
Proof.
  intros [W C] St. destruct St as [held before behind m rest a En].
  cbn [requests mu] in *.
  assert (Wr : bracketed (m ++ a :: rest) = true).
  { rewrite Forall_forall in W. apply (W {| made := m; todo := a :: rest |}).
    apply in_elt. }
  split.
  - cbn [requests]. apply Forall_app. apply Forall_app in W.
    destruct W as [Wb Wr']. split; [exact Wb|].
    inversion Wr' as [|? ? _ Wh]; subst. constructor; [|exact Wh].
    unfold wellBracketed. cbn [made todo].
    rewrite <- app_assoc. exact Wr.
  - rewrite inside_split in *. cbn [mu].
    destruct (bracketed_next _ _ _ Wr)
      as [[-> [-> _]] | [[body [-> [N [-> ->]]]] | [m' [rest' [-> [-> N]]]]]].
    + cbn in En. apply negb_true_iff in En. subst held.
      change (inSequence {| made := []; todo := MuLock :: rest |})
        with false in C.
      change (inSequence {| made := [] ++ [MuLock]; todo := rest |})
        with true.
      cbn [mutexAfter]. cbv beta iota in C |- *. lia.
    + rewrite (inSequence_locked body) in C by exact N.
      rewrite inSequence_unlocked.
      destruct held; cbn [mutexAfter]; cbv beta iota in C |- *; lia.
    + apply existsb_isMutex_app in N. destruct N as [Nm Na].
      rewrite (inSequence_locked m') in C by exact Nm.
      change ((MuLock :: m') ++ [a]) with (MuLock :: (m' ++ [a])).
      rewrite (inSequence_locked (m' ++ [a])).
      * replace (mutexAfter held a) with held
          by (destruct a; try reflexivity; discriminate Na).
        cbv beta iota in C |- *. exact C.
      * rewrite existsb_app. cbn [existsb]. rewrite Nm, Na. reflexivity.
Qed.

Lemma start_invariant runs : Forall DownloadRun runs -> invariant (start runs).
Proof.
  intros R. split.
  - cbn [start requests]. apply Forall_map.
    eapply Forall_impl; [|exact R].
    intros t D. unfold wellBracketed. cbn [made todo app].
    apply Download_bracketed, D.
  - unfold inside, start. cbn [requests mu].
    clear R. induction runs as [|t runs IH]; [reflexivity|].
    cbn. exact IH.
Qed.

Lemma reachable_invariant runs s :
  Forall DownloadRun runs -> reachable (start runs) s -> invariant s.
Proof.
  intros R Re. induction Re as [|s s' _ IH St].
  - apply start_invariant, R.
  - eapply step_invariant; eassumption.
Qed.

Lemma started_not_finished_is_inside m td :
  bracketed (m ++ td) = true -> m <> [] -> td <> [] ->
  inSequence {| made := m; todo := td |} = true.
Proof.
  intros B M T. destruct td as [|a rest]; [contradiction|].
  destruct (bracketed_next _ _ _ B)
    as [[-> _] | [[body [-> [N _]]] | [m' [rest' [-> [_ N]]]]]].
  - contradiction.
  - apply inSequence_locked, N.
  - apply existsb_isMutex_app in N. apply inSequence_locked, N.
Qed.

(** C7.  Every run of [Download] is [MuLock], then calls that do not touch
    the mutex, then [MuUnlock]; and however the calls of any number of
    concurrent runs are interleaved, at most one request is inside the
    sequence, every request that has begun and not ended being inside. *)
Theorem at_most_one_Download_in_the_sequence runs s :
  Forall DownloadRun runs ->
  reachable (start runs) s ->
  Forall (fun t => exists body,
            t = MuLock :: body ++ [MuUnlock]
            /\ existsb isMutex body = false) runs
  /\ inside s <= 1
  /\ (forall r, In r (requests s) ->
                made r <> [] -> todo r <> [] -> inSequence r = true).
Proof.
  intros R Re. split; [|split].
  - eapply Forall_impl; [|exact R].
    intros t D. apply bracketed_shape, Download_bracketed, D.
  - destruct (reachable_invariant runs s R Re) as [_ C].
    rewrite C. destruct (mu s); lia.
  - destruct (reachable_invariant runs s R Re) as [W _].
    intros [m td] I M T. rewrite Forall_forall in W.
    apply started_not_finished_is_inside; [exact (W _ I) | exact M | exact T].
Qed.

Lemma at_most_one_Download_in_the_sequence_witness :
  Forall DownloadRun [Example.run1; Example.run2]
  /\ reachable (start [Example.run1; Example.run2]) Example.locked
  /\ inside Example.locked <= 1.
Proof.
  assert (R : Forall DownloadRun [Example.run1; Example.run2])
    by (repeat constructor).
  assert (Re : reachable (start [Example.run1; Example.run2]) Example.locked).
  { eapply reachable_step; [apply reachable_start|].
    exact (step_call false [] [ {| made := []; todo := Example.run2 |} ]
             [] (tl Example.run1) MuLock eq_refl). }
  split; [exact R|]. split; [exact Re|].
  exact (proj1 (proj2
    (at_most_one_Download_in_the_sequence _ _ R Re))).
Defined.

(** * Further properties *)

Local Open Scope string_scope.

(** ** More on the download sequence *)

Ltac some_eq :=
  repeat match goal with
         | H : Some _ = Some _ |- _ => injection H as ?; subst
         | H : (_, _) = (_, _) |- _ => injection H as ? ?; subst
         | H : negb (_ =? _)%Z = false |- _ =>
             apply negb_false_iff, Z.eqb_eq in H
         | H : negb (_ =? _)%Z = true |- _ =>
             apply negb_true_iff, Z.eqb_neq in H
         end.

(** X.  Whenever [Download] returns an error, the path it returns is the
    empty string, in both variants. *)
Theorem a_failed_Download_returns_no_path lib cfg env g photoID b path err :
  (value (VariantA.Download lib cfg env g photoID b) = (path, Some err) ->
   path = "")
  /\ (value (VariantB.Download lib cfg env g photoID b) = (path, Some err) ->
      path = "").
Proof.
  split; paths; intros V; injection V as ? ?; subst; try reflexivity;
    discriminate.
Qed.

(** X.  Whenever [Download] returns no error, the path is
    [filepath.Join(downloadDir, GUID)] for the file the completion event
    names, and [os.Stat] has been called on that very path and has
    succeeded. *)
Theorem a_returned_path_has_been_checked lib cfg env g photoID b path :
  (value (VariantA.Download lib cfg env g photoID b) = (path, None) ->
   path = Join lib (downloadDir cfg) (on_GUID env)
   /\ In (WaitDownload (on_GUID env))
         (calls (VariantA.Download lib cfg env g photoID b))
   /\ In (OsStat path None)
         (calls (VariantA.Download lib cfg env g photoID b)))
  /\ (value (VariantB.Download lib cfg env g photoID b) = (path, None) ->
      path = Join lib (downloadDir cfg) (on_GUID env)
      /\ In (WaitDownload (on_GUID env))
            (calls (VariantB.Download lib cfg env g photoID b))
      /\ In (OsStat path None)
            (calls (VariantB.Download lib cfg env g photoID b))).
Proof.
  split; paths; intros V; try discriminate V;
    injection V as ?; subst;
    (split; [reflexivity|]); split; cbn;
    repeat match goal with H : on_Stat _ _ = None |- _ => rewrite H end;
    tauto.
Qed.

(** X.  Variant B sends the download key press only after the filter has
    captured a response that comes from a photo address and has status
    200. *)
Theorem VariantB_triggers_only_after_200 lib cfg env g photoID b t err :
  In (PageKeyActions t err)
     (calls (VariantB.Download lib cfg env g photoID b)) ->
  exists e,
    In (WaitNetwork t (Some e))
       (calls (VariantB.Download lib cfg env g photoID b))
    /\ In e (on_events env)
    /\ matchesB e = true
    /\ Response_Status e = 200%Z.
Proof.
  paths; intros; in_trace; some_eq;
    match goal with
    | H : eachEvent VariantB.callback _ None = Some ?e |- _ =>
        exists e; apply eachEvent_callback_some in H; destruct H;
        repeat split; cbn; tauto
    end.
Qed.

(** ** The tabs of the browser *)

Lemma remove_fresh (t : Tab) l : ~ In t l -> remove Nat.eq_dec t l = l.
Proof. apply notin_remove. Qed.

Lemma In_remove_other (t u : Tab) l :
  In u l -> u <> t -> In u (remove Nat.eq_dec t l).
Proof. intros I N. apply in_in_remove; assumption. Qed.

Ltac tabs_below W :=
  intros t I;
  repeat match goal with
         | H : In _ (_ :: _) |- _ => destruct H as [<-|H]
         | H : In _ (remove _ _ _) |- _ => apply in_remove in H; destruct H
         end;
  try lia;
  match goal with H : In _ (tabs _) |- _ => apply W in H; lia end.

Ltac tabs_kept b :=
  paths; intros W; unfold tabsBelowNext in *; cbn [tabs next] in *;
  assert (F : ~ In (next b) (tabs b))
    by (intros I; apply W in I; lia);
  try congruence;
  (split;
   [ tabs_below W
   | split;
     [ intros C; try discriminate C;
       try (rewrite remove_fresh by exact F); reflexivity
     | intros t I; try exact I; try (right; exact I);
       try (apply In_remove_other; [exact I | intros ->; contradiction]) ] ]).

Lemma VariantA_keeps_the_tabs lib cfg env g photoID b :
  tabsBelowNext b ->
  tabsBelowNext (after (VariantA.Download lib cfg env g photoID b))
  /\ (on_Close env = None ->
      tabs (after (VariantA.Download lib cfg env g photoID b)) = tabs b)
  /\ (forall t, In t (tabs b) ->
        In t (tabs (after (VariantA.Download lib cfg env g photoID b)))).
Proof. tabs_kept b. Qed.

Lemma VariantB_keeps_the_tabs lib cfg env g photoID b :
  tabsBelowNext b ->
  tabsBelowNext (after (VariantB.Download lib cfg env g photoID b))
  /\ (on_Close env = None ->
      tabs (after (VariantB.Download lib cfg env g photoID b)) = tabs b)
  /\ (forall t, In t (tabs b) ->
        In t (tabs (after (VariantB.Download lib cfg env g photoID b)))).
Proof. tabs_kept b. Qed.

Ltac opened :=
  paths; intros; in_trace; some_eq; cbn [next]; auto.

Lemma VariantA_opened lib cfg env g photoID b url t :
  In (BrowserPage url (Ok t))
     (calls (VariantA.Download lib cfg env g photoID b)) ->
  t = next b
  /\ next (after (VariantA.Download lib cfg env g photoID b)) = S (next b).
Proof. opened. Qed.

Lemma VariantB_opened lib cfg env g photoID b url t :
  In (BrowserPage url (Ok t))
     (calls (VariantB.Download lib cfg env g photoID b)) ->
  t = next b
  /\ next (after (VariantB.Download lib cfg env g photoID b)) = S (next b).
Proof. opened. Qed.

Lemma VariantB_tab_calls lib cfg env g photoID b a t :
  In a (calls (VariantB.Download lib cfg env g photoID b)) ->
  tabOf a = Some t ->
  t = next b \/ t = page g.
Proof.
  paths; intros; in_trace; cbn in *; some_eq; auto; discriminate.
Qed.

(** X.  Two calls of [Download] one after the other open two different
    tabs, the second being the next one the browser creates, and the second
    call makes no call on the tab of the first. *)
Theorem two_Downloads_work_on_two_tabs
    lib cfg env1 env2 g photoID1 photoID2 b url1 url2 t1 t2 :
  page g < next b ->
  (In (BrowserPage url1 (Ok t1))
      (calls (VariantA.Download lib cfg env1 g photoID1 b)) ->
   In (BrowserPage url2 (Ok t2))
      (calls (VariantA.Download lib cfg env2 g photoID2
                (after (VariantA.Download lib cfg env1 g photoID1 b)))) ->
   t2 = S t1
   /\ forall a,
        In a (calls (VariantA.Download lib cfg env2 g photoID2
                       (after (VariantA.Download lib cfg env1 g photoID1 b))))
        -> tabOf a <> Some t1)
  /\
  (In (BrowserPage url1 (Ok t1))
      (calls (VariantB.Download lib cfg env1 g photoID1 b)) ->
   In (BrowserPage url2 (Ok t2))
      (calls (VariantB.Download lib cfg env2 g photoID2
                (after (VariantB.Download lib cfg env1 g photoID1 b)))) ->
   t2 = S t1
   /\ forall a,
        In a (calls (VariantB.Download lib cfg env2 g photoID2
                       (after (VariantB.Download lib cfg env1 g photoID1 b))))
        -> tabOf a <> Some t1).
Proof.
  intros H. split; intros O1 O2.
  - apply VariantA_opened in O1. destruct O1 as [-> N1].
    apply VariantA_opened in O2. destruct O2 as [-> _].
    split; [exact N1|]. intros a I T.
    apply (VariantA_works_on_the_ephemeral_tab _ _ _ _ _ _ _ _ I) in T.
    lia.
  - apply VariantB_opened in O1. destruct O1 as [-> N1].
    apply VariantB_opened in O2. destruct O2 as [-> _].
    split; [exact N1|]. intros a I T.
    destruct (VariantB_tab_calls _ _ _ _ _ _ _ _ I T) as [E|E];
      lia.
Qed.

(** X.  In variant B the first response that comes from a photo address
    decides: what [Download] does and returns is the same whatever
    responses come before it from other addresses and whatever responses
    come after it. *)
Theorem responses_after_the_first_match_are_not_looked_at
    lib cfg env g photoID b pre e post :
  (forall x, In x pre -> matchesB x = false) ->
  matchesB e = true ->
  VariantB.Download lib cfg (withEvents env (pre ++ e :: post)%list) g photoID b
  = VariantB.Download lib cfg (withEvents env [e]) g photoID b.
Proof.
  intros P M.
  assert (E1 : eachEvent VariantB.callback (pre ++ e :: post)%list None
               = Some e).
  { rewrite eachEvent_callback_find. 
    induction pre as [|x pre IH]; cbn [app find].
    - rewrite M. reflexivity.
    - rewrite (P x) by (left; reflexivity).
      apply IH. intros y I. apply P. right. exact I. }
  assert (E2 : eachEvent VariantB.callback [e] None = Some e).
  { rewrite eachEvent_callback_find. cbn [find]. rewrite M. reflexivity. }
  unfold_run. cbn [withEvents on_Page on_Close on_WaitDownload on_Navigate
                   on_WaitLoad on_events on_KeyActions on_GUID on_Stat
                   on_Remove].
  rewrite E1, E2. reflexivity.
Qed.

(** ** More on the request handler *)

Ltac foreign_error :=
  repeat match goal with
         | |- context [As_httpError ?e] =>
             let N := fresh "N" in
             assert (N : As_httpError e = None) by eauto;
             rewrite N; cbn
         end.

(** X.  When [Download] succeeds, [getID] makes the calls of [Download]
    and then, the mutex being unlocked, serves the file and removes it, in
    this order, and writes no header of its own. *)
Theorem getID_serves_the_file_then_removes_it lib cfg env g photoID b path :
  (value (VariantA.Download lib cfg env g photoID b) = (path, None) ->
   calls (VariantA.getID lib cfg env g photoID b)
   = (calls (VariantA.Download lib cfg env g photoID b)
      ++ [ServeFile path; OsRemove path (on_Remove env)])%list)
  /\ (value (VariantB.Download lib cfg env g photoID b) = (path, None) ->
      calls (VariantB.getID lib cfg env g photoID b)
      = (calls (VariantB.Download lib cfg env g photoID b)
         ++ [ServeFile path; OsRemove path (on_Remove env)])%list).
Proof.
  split; paths; intros V; try discriminate V; injection V as ?; subst;
    reflexivity.
Qed.

(** X.  When [Download] fails and the errors of the browser and of the file
    system are their own, [getID] answers with [WriteHeader(500)] and
    nothing else: always in variant A, and in variant B unless the filter
    captured a response whose status is not 200. *)
Theorem a_failure_without_upstream_status_is_answered_500
    lib cfg env g photoID b path err :
  foreignErrors env ->
  (value (VariantA.Download lib cfg env g photoID b) = (path, Some err) ->
   calls (VariantA.getID lib cfg env g photoID b)
   = (calls (VariantA.Download lib cfg env g photoID b)
      ++ [WriteHeader StatusInternalServerError])%list)
  /\ (value (VariantB.Download lib cfg env g photoID b) = (path, Some err) ->
      (forall t e,
         In (WaitNetwork t (Some e))
            (calls (VariantB.Download lib cfg env g photoID b)) ->
         Response_Status e = 200%Z) ->
      calls (VariantB.getID lib cfg env g photoID b)
      = (calls (VariantB.Download lib cfg env g photoID b)
         ++ [WriteHeader StatusInternalServerError])%list).
Proof.
  intros (FP & FD & FN & FL & FK & FS). unfold foreign in *.
  split.
  - paths; intros V; try discriminate V; foreign_error; reflexivity.
  - paths; intros V U; try discriminate V; foreign_error; try reflexivity.
    all: exfalso;
      match goal with
      | H : negb (Response_Status ?e =? 200)%Z = true |- _ =>
          apply negb_true_iff, Z.eqb_neq in H; apply H;
          apply (U (next b) e); cbn; tauto
      end.
Qed.

(** ** More on the authentication loop *)

Local Open Scope list_scope.

Lemma authLoop_falls_through landed cfg env (R : Type) :
  forall fuel try home auth b,
  exists r t,
    @authLoop landed cfg env R fuel try home auth b = (Next r, b, t)
    /\ (r = Some false -> auth = false /\ login cfg = false).
Proof.
  induction fuel as [|fuel IH]; intros try home auth b.
  - cbn [authLoop].
    destruct (login cfg || (try <? 60)%nat) eqn:C.
    + exists None, []. split; [reflexivity | discriminate].
    + exists (Some auth), []. split; [reflexivity|].
      apply orb_false_iff in C. intros [= ->]. tauto.
  - cbn [authLoop].
    destruct (login cfg || (try <? 60)%nat) eqn:C.
    + unfold bind, call, time_Sleep, page_Info, outside.
      destruct (IH (S try) home auth b) as [r [t [Run P]]].
      destruct (on_Info env try) as [u|e].
      * destruct (landed u).
        -- eexists _, _. split; [reflexivity | discriminate].
        -- rewrite Run. eexists _, _. split; [reflexivity | exact P].
      * rewrite Run. eexists _, _. split; [reflexivity | exact P].
    + exists (Some auth), []. split; [reflexivity|].
      apply orb_false_iff in C. intros [= ->]. tauto.
Qed.

Lemma startBrowserWith_started loginURL landed cfg env fuel b r t :
  startOK env ->
  @authLoop landed cfg env (option (result Gphotos)) fuel 0 (next b) false
    {| tabs := next b :: tabs b; next := S (next b) |}
  = (Next r, {| tabs := next b :: tabs b; next := S (next b) |}, t) ->
  startBrowserWith loginURL landed cfg env fuel b
  = (verdict (next b) r,
     {| tabs := next b :: tabs b; next := S (next b) |},
     [LauncherLaunch (negb (show cfg) && negb (login cfg)) None;
      BrowserConnect None;
      BrowserPage (if login cfg then loginURL else gphotosURL) (Ok (next b));
      PageWaitLoad (next b) None] ++ t).
Proof.
  intros (La & Co & Hp & Hl) Run.
  unfold startBrowserWith, func, bind, call, check, outside, browser_Page,
    page_WaitLoad.
  rewrite La, Co, Hp, Hl. cbn. rewrite Run.
  destruct r as [[|]|]; cbn; rewrite ?app_nil_r; reflexivity.
Qed.

Lemma startBrowserWith_lands loginURL landed cfg env fuel b k url :
  startOK env ->
  login cfg = true \/ k < 60 ->
  k < fuel ->
  (forall j u, j < k -> on_Info env j = Ok u -> landed u = false) ->
  on_Info env k = Ok url -> landed url = true ->
  value (startBrowserWith loginURL landed cfg env fuel b)
  = Some (Ok {| page := next b |})
  /\ polls (calls (startBrowserWith loginURL landed cfg env fuel b)) = S k.
Proof.
  intros S0 C F N I Y.
  destruct (authLoop_lands landed cfg env (option (result Gphotos))
              k fuel 0 (next b) false
              {| tabs := next b :: tabs b; next := S (next b) |} url)
    as [t [Run P]];
    [ destruct C; [left; assumption | right; lia] | exact F
    | intros j u J; apply N; lia | exact I | exact Y | ].
  rewrite (startBrowserWith_started _ _ _ _ _ _ _ _ S0 Run).
  split; [reflexivity | exact P].
Qed.

(** With [-login] the loop goes on as long as no poll is accepted. *)
Lemma authLoop_waits landed cfg env (R : Type) :
  login cfg = true ->
  forall fuel try home auth b,
    (forall j u, try <= j < try + fuel -> on_Info env j = Ok u ->
                 landed u = false) ->
    exists t,
      @authLoop landed cfg env R fuel try home auth b = (Next None, b, t)
      /\ polls t = fuel.
Proof.
  intros L. induction fuel as [|fuel IH]; intros try home auth b N;
    cbn [authLoop]; rewrite L; cbn [orb].
  - exists []. split; reflexivity.
  - unfold bind, call, time_Sleep, page_Info, outside.
    destruct (IH (S try) home auth b) as [t [Run P]];
      [intros j u J; apply N; lia|].
    destruct (on_Info env try) as [u|e] eqn:I.
    + rewrite (N try u) by (lia || exact I).
      rewrite Run. eexists. split; [reflexivity|].
      cbn. unfold polls in P. rewrite P. reflexivity.
    + rewrite Run. eexists. split; [reflexivity|].
      cbn. unfold polls in P. rewrite P. reflexivity.
Qed.

(** Without [-login] the loop ends within the polls that are left, and
    iterations looked at beyond them change nothing. *)
Lemma authLoop_bounded landed cfg env (R : Type) :
  login cfg = false ->
  forall n fuel try home auth b,
    try + n = 60 -> n <= fuel ->
    exists r t,
      @authLoop landed cfg env R fuel try home auth b = (Next (Some r), b, t)
      /\ @authLoop landed cfg env R n try home auth b = (Next (Some r), b, t)
      /\ polls t <= n.
Proof.
  intros L. induction n as [|n IH]; intros fuel try home auth b E F.
  - assert (try = 60) by lia. subst try.
    exists auth, []. cbn [authLoop].
    destruct fuel; cbn [authLoop]; rewrite L; cbn; auto.
  - destruct fuel as [|fuel]; [lia|].
    assert (T : (try <? 60)%nat = true) by (apply Nat.ltb_lt; lia).
    cbn [authLoop]. rewrite L, T. cbn [orb].
    destruct (IH fuel (S try) home auth b) as [r [t [Run [Run' P]]]];
      [lia | lia |].
    unfold bind, call, time_Sleep, page_Info, outside.
    destruct (on_Info env try) as [u|e].
    + destruct (landed u).
      * exists true. eexists. repeat split. cbn. lia.
      * rewrite Run, Run'. exists r. eexists. repeat split.
        cbn. unfold polls in P. lia.
    + rewrite Run, Run'. exists r. eexists. repeat split.
      cbn. unfold polls in P. lia.
Qed.

Section Bounded.

(** The loop is not to be unfolded at the literal 60. *)
Local Arguments authLoop : simpl never.

Lemma startBrowserWith_bounded loginURL landed cfg env fuel b :
  login cfg = false ->
  60 <= fuel ->
  startBrowserWith loginURL landed cfg env fuel b
  = startBrowserWith loginURL landed cfg env 60 b
  /\ value (startBrowserWith loginURL landed cfg env fuel b) <> None
  /\ polls (calls (startBrowserWith loginURL landed cfg env fuel b)) <= 60.
Proof.
  intros L F.
  destruct (authLoop_bounded landed cfg env (option (result Gphotos)) L
              60 fuel 0 (next b) false
              {| tabs := next b :: tabs b; next := S (next b) |})
    as [r [t [Run [Run' P]]]]; [lia | exact F |].
  unfold startBrowserWith, func, bind, call, check, outside, browser_Page,
    page_WaitLoad, value, calls.
  destruct (on_Launch env); [cbn; repeat split; (discriminate || lia)|].
  destruct (on_Connect env); [cbn; repeat split; (discriminate || lia)|].
  destruct (on_HomePage env); [cbn; repeat split; (discriminate || lia)|].
  destruct (on_HomeLoad env); [cbn; repeat split; (discriminate || lia)|].
  cbn. rewrite Run, Run'.
  destruct r; cbn; rewrite ?app_nil_r; repeat split;
    try discriminate; exact P.
Qed.

End Bounded.

Lemma startBrowserWith_login_waits loginURL landed cfg env fuel b :
  login cfg = true ->
  value (startBrowserWith loginURL landed cfg env fuel b)
  <> Some (Err (New "browser is not logged in - rerun with the -login flag"))
  /\ (startOK env ->
      (forall j u, j < fuel -> on_Info env j = Ok u -> landed u = false) ->
      value (startBrowserWith loginURL landed cfg env fuel b) = None
      /\ polls (calls (startBrowserWith loginURL landed cfg env fuel b))
         = fuel).
Proof.
  intros L. split.
  - destruct (authLoop_falls_through landed cfg env
                (option (result Gphotos)) fuel 0 (next b) false
                {| tabs := next b :: tabs b; next := S (next b) |})
      as [r [t [Run P]]].
    unfold startBrowserWith, func, bind, call, check, outside, browser_Page,
      page_WaitLoad, value.
    destruct (on_Launch env); [cbn; discriminate|].
    destruct (on_Connect env); [cbn; discriminate|].
    destruct (on_HomePage env); [cbn; discriminate|].
    destruct (on_HomeLoad env); [cbn; discriminate|].
    cbn. rewrite Run.
    destruct r as [[|]|]; cbn; try discriminate.
    destruct (P eq_refl) as [_ L']. congruence.
  - intros S0 N.
    destruct (authLoop_waits landed cfg env (option (result Gphotos)) L
                fuel 0 (next b) false
                {| tabs := next b :: tabs b; next := S (next b) |})
      as [t [Run P]]; [intros j u J; apply N; lia|].
    rewrite (startBrowserWith_started _ _ _ _ _ _ _ _ S0 Run).
    split; [reflexivity | exact P].
Qed.

Lemma startBrowserWith_polls_only_when_started
    loginURL landed cfg env fuel b :
  0 < polls (calls (startBrowserWith loginURL landed cfg env fuel b))
  \/ (exists g, value (startBrowserWith loginURL landed cfg env fuel b)
                = Some (Ok g)) ->
  startOK env.
Proof.
  unfold startOK, startBrowserWith, func, bind, call, check, outside,
    browser_Page, page_WaitLoad, value, calls.
  destruct (on_Launch env);
    [cbn; intros [P|[g P]]; [inversion P | discriminate P]|].
  destruct (on_Connect env);
    [cbn; intros [P|[g P]]; [inversion P | discriminate P]|].
  destruct (on_HomePage env);
    [cbn; intros [P|[g P]]; [inversion P | discriminate P]|].
  destruct (on_HomeLoad env);
    [cbn; intros [P|[g P]]; [inversion P | discriminate P]|].
  auto.
Qed.

(** A test that accepts more ends the loop no later. *)
Lemma authLoop_monotone landed1 landed2 cfg env (R : Type) :
  (forall u, landed1 u = true -> landed2 u = true) ->
  forall fuel try home b t1,
    @authLoop landed1 cfg env R fuel try home false b
    = (Next (Some true), b, t1) ->
    exists t2,
      @authLoop landed2 cfg env R fuel try home false b
      = (Next (Some true), b, t2)
      /\ polls t2 <= polls t1.
Proof.
  intros M. induction fuel as [|fuel IH]; intros try home b t1;
    cbn [authLoop]; destruct (login cfg || (try <? 60)%nat);
    try discriminate.
  unfold bind, call, time_Sleep, page_Info, outside.
  destruct (authLoop_falls_through landed1 cfg env R fuel (S try) home
              false b) as [r1 [u1 [Run1 _]]].
  destruct (on_Info env try) as [u|e].
  - destruct (landed1 u) eqn:L1.
    + rewrite (M u L1). intros [= <-]. eexists. split; [reflexivity|].
      apply le_n.
    + rewrite Run1. intros [= -> <-].
      destruct (landed2 u).
      * eexists. split; [reflexivity|]. cbn. lia.
      * destruct (IH _ _ _ _ Run1) as [t2 [Run2 P]].
        rewrite Run2. eexists. split; [reflexivity|].
        cbn. unfold polls in P. lia.
  - rewrite Run1. intros [= -> <-].
    destruct (IH _ _ _ _ Run1) as [t2 [Run2 P]].
    rewrite Run2. eexists. split; [reflexivity|].
    cbn. unfold polls in P. lia.
Qed.

Lemma startBrowserWith_monotone url1 url2 landed1 landed2 cfg env fuel b g :
  (forall u, landed1 u = true -> landed2 u = true) ->
  value (startBrowserWith url1 landed1 cfg env fuel b) = Some (Ok g) ->
  value (startBrowserWith url2 landed2 cfg env fuel b) = Some (Ok g)
  /\ polls (calls (startBrowserWith url2 landed2 cfg env fuel b))
     <= polls (calls (startBrowserWith url1 landed1 cfg env fuel b)).
Proof.
  intros M V.
  assert (S0 : startOK env)
    by (eapply startBrowserWith_polls_only_when_started; right; eauto).
  destruct (authLoop_falls_through landed1 cfg env
              (option (result Gphotos)) fuel 0 (next b) false
              {| tabs := next b :: tabs b; next := S (next b) |})
    as [r [t1 [Run1 _]]].
  rewrite (startBrowserWith_started _ _ _ _ _ _ _ _ S0 Run1) in V |- *.
  unfold value in V. cbn [fst] in V.
  destruct r as [[|]|]; try discriminate V.
  destruct (authLoop_monotone landed1 landed2 cfg env _ M _ _ _ _ _ Run1)
    as [t2 [Run2 P]].
  rewrite (startBrowserWith_started _ _ _ _ _ _ _ _ S0 Run2).
  split; [exact V|].
  unfold calls, polls in *. cbn [snd]. cbn. exact P.
Qed.

Lemma startBrowserWith_home_tab loginURL landed cfg env fuel b g :
  tabsBelowNext b ->
  value (startBrowserWith loginURL landed cfg env fuel b) = Some (Ok g) ->
  page g = next b
  /\ In (page g)
        (tabs (after (startBrowserWith loginURL landed cfg env fuel b)))
  /\ page g < next (after (startBrowserWith loginURL landed cfg env fuel b))
  /\ tabsBelowNext (after (startBrowserWith loginURL landed cfg env fuel b)).
Proof.
  intros W V.
  assert (S0 : startOK env)
    by (eapply startBrowserWith_polls_only_when_started; right; eauto).
  destruct (authLoop_falls_through landed cfg env
              (option (result Gphotos)) fuel 0 (next b) false
              {| tabs := next b :: tabs b; next := S (next b) |})
    as [r [t [Run _]]].
  rewrite (startBrowserWith_started _ _ _ _ _ _ _ _ S0 Run) in V |- *.
  unfold value, after in *. cbn [fst snd] in *.
  destruct r as [[|]|]; try discriminate V.
  injection V as <-. cbn [page tabs next].
  repeat split; [left; reflexivity | lia |].
  intros x [<-|I]; cbn [next]; [lia|]. apply W in I. lia.
Qed.

(** ** [startBrowser] in the two variants *)

(** X.  Once the home tab is loaded, if poll [k] is the first whose URL
    passes the test, and it is made (with [-login], or [k] below 60),
    [startBrowser] returns nil with [g.page] the home tab after exactly
    [k + 1] polls. *)
Theorem startBrowser_returns_at_the_first_accepted_poll
    cfg env fuel b k url :
  startOK env ->
  login cfg = true \/ k < 60 ->
  k < fuel ->
  on_Info env k = Ok url ->
  ((forall j u, j < k -> on_Info env j = Ok u ->
                VariantA.authenticated u = false) ->
   VariantA.authenticated url = true ->
   value (VariantA.startBrowser cfg env fuel b)
   = Some (Ok {| page := next b |})
   /\ polls (calls (VariantA.startBrowser cfg env fuel b)) = S k)
  /\
  ((forall j u, j < k -> on_Info env j = Ok u ->
                VariantB.authenticated u = false) ->
   VariantB.authenticated url = true ->
   value (VariantB.startBrowser cfg env fuel b)
   = Some (Ok {| page := next b |})
   /\ polls (calls (VariantB.startBrowser cfg env fuel b)) = S k).
Proof.
  intros S0 C F I. split; intros N Y.
  - eapply startBrowserWith_lands; eassumption.
  - eapply startBrowserWith_lands; eassumption.
Qed.

Lemma Sample_thirdPoll_started : startOK Sample.thirdPoll.
Proof. repeat split. Defined.

Lemma Sample_thirdPoll_before j u :
  j < 2 -> on_Info Sample.thirdPoll j = Ok u ->
  VariantA.authenticated u = false /\ VariantB.authenticated u = false.
Proof.
  intros J E. destruct j as [|[|j]]; [| |lia];
    injection E as <-; split; reflexivity.
Defined.

Lemma startBrowser_returns_at_the_first_accepted_poll_witness :
  value (VariantA.startBrowser Example.cfg Sample.thirdPoll 60 Example.fresh)
  = Some (Ok {| page := 0 |})
  /\ polls (calls (VariantA.startBrowser Example.cfg Sample.thirdPoll 60
                     Example.fresh)) = 3
  /\ polls (calls (VariantB.startBrowser Example.cfg Sample.thirdPoll 60
                     Example.fresh)) = 3.
Proof.
  assert (K : 2 < 60) by lia.
  destruct (startBrowser_returns_at_the_first_accepted_poll
              Example.cfg Sample.thirdPoll 60 Example.fresh 2
              "https://photos.google.com/"
              Sample_thirdPoll_started (or_intror K) K eq_refl) as [A B].
  destruct A as [VA PA];
    [intros j u J E; exact (proj1 (Sample_thirdPoll_before j u J E))
    | reflexivity |].
  destruct B as [_ PB];
    [intros j u J E; exact (proj2 (Sample_thirdPoll_before j u J E))
    | reflexivity |].
  split; [exact VA|]. split; [exact PA | exact PB].
Defined.

(** X.  With [-login], [startBrowser] never returns the error that the
    browser is not logged in; as long as no poll passes the test it is
    still polling, one poll for each iteration looked at. *)
Theorem startBrowser_with_login_never_gives_up cfg env fuel b :
  login cfg = true ->
  (value (VariantA.startBrowser cfg env fuel b)
   <> Some (Err (New "browser is not logged in - rerun with the -login flag"))
   /\ (startOK env ->
       (forall j u, j < fuel -> on_Info env j = Ok u ->
                    VariantA.authenticated u = false) ->
       value (VariantA.startBrowser cfg env fuel b) = None
       /\ polls (calls (VariantA.startBrowser cfg env fuel b)) = fuel))
  /\
  (value (VariantB.startBrowser cfg env fuel b)
   <> Some (Err (New "browser is not logged in - rerun with the -login flag"))
   /\ (startOK env ->
       (forall j u, j < fuel -> on_Info env j = Ok u ->
                    VariantB.authenticated u = false) ->
       value (VariantB.startBrowser cfg env fuel b) = None
       /\ polls (calls (VariantB.startBrowser cfg env fuel b)) = fuel)).
Proof.
  intros L. split; apply startBrowserWith_login_waits; exact L.
Qed.

Lemma startBrowser_with_login_never_gives_up_witness :
  login Sample.withLogin = true
  /\ value (VariantA.startBrowser Sample.withLogin Example.signedOut 75
              Example.fresh) = None
  /\ polls (calls (VariantA.startBrowser Sample.withLogin Example.signedOut 75
                     Example.fresh)) = 75.
Proof.
  split; [reflexivity|].
  refine (proj2 (proj1 (startBrowser_with_login_never_gives_up
                          Sample.withLogin Example.signedOut 75 Example.fresh
                          eq_refl)) _ _).
  - repeat split.
  - intros j u _ E. injection E as <-. reflexivity.
Defined.

(** X.  Without [-login], [startBrowser] always returns, after at most 60
    polls, whatever the browser answers; looking at more than 60 iterations
    of the loop changes nothing. *)
Theorem startBrowser_without_login_ends_within_sixty_polls cfg env fuel b :
  login cfg = false ->
  60 <= fuel ->
  (VariantA.startBrowser cfg env fuel b = VariantA.startBrowser cfg env 60 b
   /\ value (VariantA.startBrowser cfg env fuel b) <> None
   /\ polls (calls (VariantA.startBrowser cfg env fuel b)) <= 60)
  /\
  (VariantB.startBrowser cfg env fuel b = VariantB.startBrowser cfg env 60 b
   /\ value (VariantB.startBrowser cfg env fuel b) <> None
   /\ polls (calls (VariantB.startBrowser cfg env fuel b)) <= 60).
Proof.
  intros L F. split; apply startBrowserWith_bounded; assumption.
Qed.

Lemma startBrowser_without_login_ends_within_sixty_polls_witness :
  login Example.cfg = false
  /\ 60 <= 1000
  /\ value (VariantB.startBrowser Example.cfg Sample.thirdPoll 1000
              Example.fresh) <> None
  /\ polls (calls (VariantB.startBrowser Example.cfg Sample.thirdPoll 1000
                     Example.fresh)) <= 60.
Proof.
  assert (F : 60 <= 1000) by lia.
  split; [reflexivity|]. split; [exact F|].
  exact (proj2 (proj2 (startBrowser_without_login_ends_within_sixty_polls
                         Example.cfg Sample.thirdPoll 1000 Example.fresh
                         eq_refl F))).
Defined.

(** X.  [startBrowser] polls the home tab, and returns nil, only when the
    launch, the connection, the opening of the home tab and its load have
    all succeeded. *)
Theorem startBrowser_polls_only_a_loaded_home_tab cfg env fuel b :
  (0 < polls (calls (VariantA.startBrowser cfg env fuel b))
   \/ (exists g, value (VariantA.startBrowser cfg env fuel b) = Some (Ok g))
   -> startOK env)
  /\
  (0 < polls (calls (VariantB.startBrowser cfg env fuel b))
   \/ (exists g, value (VariantB.startBrowser cfg env fuel b) = Some (Ok g))
   -> startOK env).
Proof.
  split; apply startBrowserWith_polls_only_when_started.
Qed.

Lemma startBrowser_polls_only_a_loaded_home_tab_witness :
  0 < polls (calls (VariantA.startBrowser Example.cfg Sample.thirdPoll 60
                      Example.fresh))
  /\ startOK Sample.thirdPoll
  /\ polls (calls (VariantA.startBrowser Example.cfg Sample.noBrowser 60
                     Example.fresh)) = 0.
Proof.
  assert (P : 0 < polls (calls (VariantA.startBrowser Example.cfg
                                  Sample.thirdPoll 60 Example.fresh)))
    by (vm_compute; lia).
  split; [exact P|]. split; [|reflexivity].
  exact (proj1 (startBrowser_polls_only_a_loaded_home_tab
                  Example.cfg Sample.thirdPoll 60 Example.fresh)
           (or_introl P)).
Defined.

(** X.  On the same answers, whenever variant B's [startBrowser] returns
    nil so does variant A's, with the same home tab and after no more
    polls. *)
Theorem VariantA_is_authenticated_whenever_VariantB_is cfg env fuel b g :
  value (VariantB.startBrowser cfg env fuel b) = Some (Ok g) ->
  value (VariantA.startBrowser cfg env fuel b) = Some (Ok g)
  /\ polls (calls (VariantA.startBrowser cfg env fuel b))
     <= polls (calls (VariantB.startBrowser cfg env fuel b)).
Proof.
  apply startBrowserWith_monotone. exact authenticated_B_implies_A.
Qed.

Lemma VariantA_is_authenticated_whenever_VariantB_is_witness :
  value (VariantB.startBrowser Example.cfg Sample.thirdPoll 60 Example.fresh)
  = Some (Ok {| page := 0 |})
  /\ value (VariantA.startBrowser Example.cfg Sample.thirdPoll 60
              Example.fresh)
     = Some (Ok {| page := 0 |}).
Proof.
  assert (V : value (VariantB.startBrowser Example.cfg Sample.thirdPoll 60
                       Example.fresh) = Some (Ok {| page := 0 |}))
    by reflexivity.
  split; [exact V|].
  exact (proj1 (VariantA_is_authenticated_whenever_VariantB_is
                  Example.cfg Sample.thirdPoll 60 Example.fresh _ V)).
Defined.

(** X.  When [startBrowser] returns nil, [g.page] is the tab it opened: it
    is open, and it is older than every tab the browser creates later. *)
Theorem startBrowser_leaves_the_home_tab_open cfg env fuel b g :
  tabsBelowNext b ->
  (value (VariantA.startBrowser cfg env fuel b) = Some (Ok g) ->
   page g = next b
   /\ In (page g) (tabs (after (VariantA.startBrowser cfg env fuel b)))
   /\ page g < next (after (VariantA.startBrowser cfg env fuel b))
   /\ tabsBelowNext (after (VariantA.startBrowser cfg env fuel b)))
  /\
  (value (VariantB.startBrowser cfg env fuel b) = Some (Ok g) ->
   page g = next b
   /\ In (page g) (tabs (after (VariantB.startBrowser cfg env fuel b)))
   /\ page g < next (after (VariantB.startBrowser cfg env fuel b))
   /\ tabsBelowNext (after (VariantB.startBrowser cfg env fuel b))).
Proof.
  intros W. split; apply startBrowserWith_home_tab; exact W.
Qed.

Lemma startBrowser_leaves_the_home_tab_open_witness :
  tabsBelowNext Example.fresh
  /\ In 0 (tabs (after (VariantA.startBrowser Example.cfg Sample.thirdPoll 60
                          Example.fresh)))
  /\ 0 < next (after (VariantA.startBrowser Example.cfg Sample.thirdPoll 60
                        Example.fresh)).
Proof.
  assert (W : tabsBelowNext Example.fresh) by (intros t []).
  split; [exact W|].
  destruct (proj1 (startBrowser_leaves_the_home_tab_open
                     Example.cfg Sample.thirdPoll 60 Example.fresh
                     {| page := 0 |} W) eq_refl) as [_ [I [L _]]].
  split; [exact I | exact L].
Defined.

(** ** Witnesses and the tabs across a download *)

(** X.  [Download] keeps the tabs in order: the identifiers of the open
    tabs stay below the next one, no tab that was open is closed, and when
    the browser carries out the close of the ephemeral tab the open tabs
    are exactly those there were. *)
Theorem Download_keeps_the_open_tabs lib cfg env g photoID b :
  tabsBelowNext b ->
  (tabsBelowNext (after (VariantA.Download lib cfg env g photoID b))
   /\ (on_Close env = None ->
       tabs (after (VariantA.Download lib cfg env g photoID b)) = tabs b)
   /\ (forall t, In t (tabs b) ->
         In t (tabs (after (VariantA.Download lib cfg env g photoID b)))))
  /\
  (tabsBelowNext (after (VariantB.Download lib cfg env g photoID b))
   /\ (on_Close env = None ->
       tabs (after (VariantB.Download lib cfg env g photoID b)) = tabs b)
   /\ (forall t, In t (tabs b) ->
         In t (tabs (after (VariantB.Download lib cfg env g photoID b))))).
Proof.
  intros W. split.
  - apply VariantA_keeps_the_tabs, W.
  - apply VariantB_keeps_the_tabs, W.
Qed.

Lemma Example_b_tabsBelowNext : tabsBelowNext Example.b.
Proof. intros t [<-|[]]. apply le_n. Defined.

Lemma Download_keeps_the_open_tabs_witness :
  tabsBelowNext Example.b
  /\ tabs (after (VariantB.Download Unix.library Example.cfg Example.notFound
                    Example.g Example.photoID Example.b)) = [0]
  /\ In 0 (tabs (after (VariantA.Download Unix.library Example.cfg
                          Example.loadFails Example.g Example.photoID
                          Example.b))).
Proof.
  split; [exact Example_b_tabsBelowNext|].
  destruct (Download_keeps_the_open_tabs
              Unix.library Example.cfg Example.notFound Example.g
              Example.photoID Example.b Example_b_tabsBelowNext)
    as [_ [_ [T _]]].
  destruct (Download_keeps_the_open_tabs
              Unix.library Example.cfg Example.loadFails Example.g
              Example.photoID Example.b Example_b_tabsBelowNext)
    as [[_ [_ K]] _].
  split; [exact (T eq_refl) | apply K; left; reflexivity].
Defined.

Lemma two_Downloads_work_on_two_tabs_witness :
  page Example.g < next Example.b
  /\ In (BrowserPage "" (Ok 1))
        (calls (VariantB.Download Unix.library Example.cfg Example.notFound
                  Example.g Example.photoID Example.b))
  /\ In (BrowserPage "" (Ok 2))
        (calls (VariantB.Download Unix.library Example.cfg Example.ok
                  Example.g Example.photoID
                  (after (VariantB.Download Unix.library Example.cfg
                            Example.notFound Example.g Example.photoID
                            Example.b))))
  /\ forall a,
       In a (calls (VariantB.Download Unix.library Example.cfg Example.ok
                      Example.g Example.photoID
                      (after (VariantB.Download Unix.library Example.cfg
                                Example.notFound Example.g Example.photoID
                                Example.b))))
       -> tabOf a <> Some 1.
Proof.
  assert (H : page Example.g < next Example.b) by (cbn; lia).
  assert (O1 : In (BrowserPage "" (Ok 1))
                  (calls (VariantB.Download Unix.library Example.cfg
                            Example.notFound Example.g Example.photoID
                            Example.b))) by (vm_compute; tauto).
  assert (O2 : In (BrowserPage "" (Ok 2))
                  (calls (VariantB.Download Unix.library Example.cfg
                            Example.ok Example.g Example.photoID
                            (after (VariantB.Download Unix.library
                                      Example.cfg Example.notFound Example.g
                                      Example.photoID Example.b)))))
    by (vm_compute; tauto).
  split; [exact H|]. split; [exact O1|]. split; [exact O2|].
  exact (proj2 (proj2 (two_Downloads_work_on_two_tabs
                         Unix.library Example.cfg Example.notFound Example.ok
                         Example.g Example.photoID Example.photoID Example.b
                         "" "" 1 2 H) O1 O2)).
Defined.

Lemma a_failed_Download_returns_no_path_witness :
  value (VariantB.Download Unix.library Example.cfg Example.notFound
           Example.g Example.photoID Example.b)
  = ("", Some (Wrap "gphoto fetch failed: " (httpError 404)))
  /\ "" = "".
Proof.
  assert (V : value (VariantB.Download Unix.library Example.cfg
                       Example.notFound Example.g Example.photoID Example.b)
              = ("", Some (Wrap "gphoto fetch failed: " (httpError 404))))
    by reflexivity.
  split; [exact V|].
  exact (proj2 (a_failed_Download_returns_no_path
                  Unix.library Example.cfg Example.notFound Example.g
                  Example.photoID Example.b "" _) V).
Defined.

Lemma a_returned_path_has_been_checked_witness :
  value (VariantA.Download Unix.library Example.cfg Example.ok Example.g
           Example.photoID Example.b)
  = ("/tmp/gphotosdl2517/0b3c9f46-6f0e-4a57-9d54-5a1f0c2e8d11", None)
  /\ In (OsStat "/tmp/gphotosdl2517/0b3c9f46-6f0e-4a57-9d54-5a1f0c2e8d11"
           None)
        (calls (VariantA.Download Unix.library Example.cfg Example.ok
                  Example.g Example.photoID Example.b)).
Proof.
  assert (V : value (VariantA.Download Unix.library Example.cfg Example.ok
                       Example.g Example.photoID Example.b)
              = ("/tmp/gphotosdl2517/0b3c9f46-6f0e-4a57-9d54-5a1f0c2e8d11",
                 None)) by reflexivity.
  split; [exact V|].
  exact (proj2 (proj2 (proj1 (a_returned_path_has_been_checked
                                Unix.library Example.cfg Example.ok Example.g
                                Example.photoID Example.b _) V))).
Defined.

Lemma VariantB_triggers_only_after_200_witness :
  In (PageKeyActions 1 None)
     (calls (VariantB.Download Unix.library Example.cfg Example.ok Example.g
               Example.photoID Example.b))
  /\ exists e,
       In (WaitNetwork 1 (Some e))
          (calls (VariantB.Download Unix.library Example.cfg Example.ok
                    Example.g Example.photoID Example.b))
       /\ In e (on_events Example.ok)
       /\ matchesB e = true
       /\ Response_Status e = 200%Z.
Proof.
  assert (K : In (PageKeyActions 1 None)
                 (calls (VariantB.Download Unix.library Example.cfg
                           Example.ok Example.g Example.photoID Example.b)))
    by (vm_compute; tauto).
  split; [exact K|].
  exact (VariantB_triggers_only_after_200 _ _ _ _ _ _ _ _ K).
Defined.

Lemma responses_after_the_first_match_are_not_looked_at_witness :
  VariantB.Download Unix.library Example.cfg
    (withEvents Example.ok
       ([Example.response "https://photos.google.com/_/scs/app.js" 200]
        ++ Example.response "https://photos.google.com/lr/photo/x" 302
        :: [Example.response "https://photos.google.com/photo/y" 200]))
    Example.g Example.photoID Example.b
  = VariantB.Download Unix.library Example.cfg
      (withEvents Example.ok
         [Example.response "https://photos.google.com/lr/photo/x" 302])
      Example.g Example.photoID Example.b.
Proof.
  apply responses_after_the_first_match_are_not_looked_at.
  - intros x [<-|[]]. reflexivity.
  - reflexivity.
Defined.

Lemma getID_serves_the_file_then_removes_it_witness :
  value (VariantB.Download Unix.library Example.cfg Example.ok Example.g
           Example.photoID Example.b)
  = ("/tmp/gphotosdl2517/0b3c9f46-6f0e-4a57-9d54-5a1f0c2e8d11", None)
  /\ calls (VariantB.getID Unix.library Example.cfg Example.ok Example.g
              Example.photoID Example.b)
     = calls (VariantB.Download Unix.library Example.cfg Example.ok Example.g
                Example.photoID Example.b)
       ++ [ServeFile "/tmp/gphotosdl2517/0b3c9f46-6f0e-4a57-9d54-5a1f0c2e8d11";
           OsRemove "/tmp/gphotosdl2517/0b3c9f46-6f0e-4a57-9d54-5a1f0c2e8d11"
             None].
Proof.
  assert (V : value (VariantB.Download Unix.library Example.cfg Example.ok
                       Example.g Example.photoID Example.b)
              = ("/tmp/gphotosdl2517/0b3c9f46-6f0e-4a57-9d54-5a1f0c2e8d11",
                 None)) by reflexivity.
  split; [exact V|].
  exact (proj2 (getID_serves_the_file_then_removes_it
                  Unix.library Example.cfg Example.ok Example.g
                  Example.photoID Example.b _) V).
Defined.

Lemma Example_loadFails_foreign : foreignErrors Example.loadFails.
Proof.
  repeat split; intros; intros e E; try discriminate E.
  injection E as <-. reflexivity.
Defined.

Lemma a_failure_without_upstream_status_is_answered_500_witness :
  foreignErrors Example.loadFails
  /\ calls (VariantA.getID Unix.library Example.cfg Example.loadFails
              Example.g Example.photoID Example.b)
     = calls (VariantA.Download Unix.library Example.cfg Example.loadFails
                Example.g Example.photoID Example.b)
       ++ [WriteHeader 500].
Proof.
  split; [exact Example_loadFails_foreign|].
  exact (proj1 (a_failure_without_upstream_status_is_answered_500
                  Unix.library Example.cfg Example.loadFails Example.g
                  Example.photoID Example.b "" Example.loadError
                  Example_loadFails_foreign) eq_refl).
Defined.

(** ** The process *)

Ltac unfold_process :=
  unfold Process.main, Process.config, Process.New, Process.startServer,
         Process.removeDownloadDirectory, Process.Close,
         Process.g_startBrowser, invoke, andThen, deferred, host, assign,
         read, fall, returns, os_Exit, ending, final, made_calls in *.

Ltac host_answer x :=
  lazymatch x with
  | on_UserConfigDir _ => idtac
  | on_MkdirAll _ => idtac
  | on_MkdirTemp _ => idtac
  | on_LookPath _ => idtac
  | on_Marshal _ => idtac
  | on_RemoveAll _ => idtac
  | on_BrowserClose _ => idtac
  | String.eqb _ _ => idtac
  end.

(** One goal for each path through the process; [sb] is the embedded
    [startBrowser], taken as a whole. *)
Ltac process_paths sb :=
  unfold_process; cbn;
  repeat match goal with
         | |- context [match ?x with _ => _ end] =>
             host_answer x; destruct x eqn:?; cbn
         | |- context [sb ?x1 ?x2 ?x3 ?x4] =>
             let o := fresh "o" in
             destruct (sb x1 x2 x3 x4) as [[o ?] ?] eqn:?;
             destruct o as [[?|?]|]; cbn
         end.

Ltac in_calls :=
  repeat match goal with
         | H : _ \/ _ |- _ => destruct H
         | H : False |- _ => destruct H
         | H : In _ (_ ++ _) |- _ => apply in_app_or in H
         | H : In _ (_ :: _) |- _ => destruct H
         | H : In _ [] |- _ => destruct H
         | H : In _ (map Browse _) |- _ =>
             apply in_map_iff in H; destruct H as [? [? ?]]
         | H : @eq Call _ _ |- _ =>
             first [discriminate H | injection H as ?; subst]
         end.


(** X.  When [main] returns, its last calls are the wait for the signal,
    then the close of the browser, then [os.RemoveAll] of the directory
    [os.MkdirTemp] gave (left out when that name is empty); the server was
    started before, and nothing was removed or closed before. *)
Theorem main_closes_the_browser_then_removes_the_directory lib flags h dd sb p :
  ending (Process.main lib flags h dd sb p) = Returns tt ->
  exists d pre,
    on_MkdirTemp h = Ok d
    /\ made_calls (Process.main lib flags h dd sb p)
       = pre ++ [SignalNotify; SignalReceive;
                 BrowserClose (on_BrowserClose h)]
             ++ (if String.eqb d "" then []
                 else [OsRemoveAll d (on_RemoveAll h)])
    /\ In (GoListenAndServe (flag_addr flags)) pre
    /\ (forall path err, ~ In (OsRemoveAll path err) pre)
    /\ (forall err, ~ In (BrowserClose err) pre).
Proof.
  process_paths sb; intros E; try discriminate E;
    match goal with
    | |- exists d pre,
           Ok ?v0 = _ /\ ?c1 :: ?c2 :: ?c3 :: ?c4 :: ?c5 :: _ = _ /\ _ =>
        match goal with
        | H : sb _ _ _ _ = (_, _, ?l) |- _ =>
            exists v0,
              (c1 :: c2 :: c3 :: c4 :: c5
               :: map Browse l
                  ++ [HttpHandleFunc "GET /";
                      HttpHandleFunc "GET /id/{photoID}";
                      GoListenAndServe (flag_addr flags)])
        end
    end;
    (split; [reflexivity|]);
    repeat match goal with
           | H : String.eqb _ _ = _ |- _ => rewrite H
           end;
    (split; [cbn; repeat rewrite <- app_assoc; reflexivity|]);
    (split; [cbn; do 5 right; apply in_or_app; right; cbn; tauto|]);
    (split; [intros ? ? I | intros ? I]); cbn in I; in_calls.
Qed.

(** X.  [main] starts the server only once [startBrowser] has returned
    nil, and on the address of the flag [-addr]. *)
Theorem the_server_starts_only_when_authenticated lib flags h dd sb p addr :
  In (GoListenAndServe addr) (made_calls (Process.main lib flags h dd sb p)) ->
  addr = flag_addr flags
  /\ exists d g,
       on_MkdirTemp h = Ok d
       /\ value (sb {| downloadDir := d;
                       login := flag_login flags;
                       show := flag_show flags |}
                    (on_startBrowser h) (on_fuel h) (browser p))
          = Some (Ok g).
Proof.
  process_paths sb; intros I; in_calls;
    (split; [reflexivity|]);
    match goal with
    | H : sb _ _ _ _ = (Some (Ok ?g), _, _) |- exists d g', Ok ?v = _ /\ _ =>
        exists v, g; split; [reflexivity|]; rewrite H; reflexivity
    end.
Qed.



Lemma main_closes_the_browser_then_removes_the_directory_witness :
  ending (ProcessA.main Unix.library Machine.flags Machine.good boot)
  = Returns tt
  /\ exists d pre,
       on_MkdirTemp Machine.good = Ok d
       /\ made_calls (ProcessA.main Unix.library Machine.flags Machine.good
                        boot)
          = pre ++ [SignalNotify; SignalReceive; BrowserClose None]
                ++ (if String.eqb d "" then []
                    else [OsRemoveAll d None]).
Proof.
  assert (E : ending (ProcessA.main Unix.library Machine.flags Machine.good
                        boot) = Returns tt)
    by (vm_compute; reflexivity).
  split; [exact E|].
  destruct (main_closes_the_browser_then_removes_the_directory
              _ _ _ _ _ _ E) as [d [pre [T [C _]]]].
  exists d, pre. split; [exact T | exact C].
Defined.

Lemma the_server_starts_only_when_authenticated_witness :
  In (GoListenAndServe "localhost:8282")
     (made_calls (ProcessA.main Unix.library Machine.flags Machine.good boot))
  /\ exists d g,
       on_MkdirTemp Machine.good = Ok d
       /\ value (VariantA.startBrowser
                   {| downloadDir := d; login := false; show := false |}
                   Sample.thirdPoll 60 {| tabs := []; next := 0 |})
          = Some (Ok g).
Proof.
  assert (I : In (GoListenAndServe "localhost:8282")
                 (made_calls (ProcessA.main Unix.library Machine.flags
                                Machine.good boot)))
    by (vm_compute; tauto).
  split; [exact I|].
  exact (proj2 (the_server_starts_only_when_authenticated
                  _ _ _ _ _ _ _ I)).
Defined.


(** ** The mutex does not block for ever *)

Lemma remaining_split held before r behind :
  remaining {| mu := held; requests := before ++ r :: behind |}
  = list_sum (map (fun r => length (todo r)) before)
    + length (todo r)
    + list_sum (map (fun r => length (todo r)) behind).
Proof.
  unfold remaining. cbn [requests].
  rewrite map_app, list_sum_app. cbn [map]. unfold list_sum. cbn [fold_right]. lia.
Qed.

Lemma step_uses_up_a_call s s' : step s s' -> remaining s' < remaining s.
Proof.
  intros [held before behind m rest a _].
  rewrite !remaining_split. cbn [todo length]. lia.
Qed.

Lemma inSequence_can_go_on r :
  wellBracketed r -> inSequence r = true ->
  exists a rest, todo r = a :: rest /\ enabled true a = true.
Proof.
  destruct r as [m td]. unfold wellBracketed. cbn [made todo].
  intros B I. destruct td as [|a rest].
  - exfalso. rewrite app_nil_r in B.
    apply bracketed_shape in B. destruct B as [body [-> _]].
    pose proof (inSequence_unlocked body []) as U.
    change ((MuLock :: body) ++ [MuUnlock])
      with (MuLock :: body ++ [MuUnlock]) in U.
    congruence.
  - exists a, rest. split; [reflexivity|].
    destruct (bracketed_next _ _ _ B)
      as [[-> _] | [[body [_ [_ [-> _]]]] | [m' [rest' [_ [_ N]]]]]].
    + discriminate I.
    + reflexivity.
    + apply existsb_isMutex_app in N. destruct N as [_ Na].
      destruct a; try reflexivity; discriminate Na.
Qed.

Lemma some_request_inside l :
  0 < length (filter inSequence l) ->
  exists r, In r l /\ inSequence r = true.
Proof.
  intros P. destruct (filter inSequence l) as [|r f] eqn:F;
    [inversion P|].
  exists r. apply filter_In. rewrite F. left. reflexivity.
Qed.

(** X.  However the calls of concurrent runs of [Download] have been
    interleaved, as long as some request has calls to make some request can
    make its next call, and every step uses up one of the calls to make:
    the mutex never blocks all requests, and all of them end. *)
Theorem the_gate_never_blocks_every_request runs s :
  Forall DownloadRun runs ->
  reachable (start runs) s ->
  (exists r, In r (requests s) /\ todo r <> []) ->
  exists s', step s s' /\ remaining s' < remaining s.
Proof.
  intros R Re [r [I T]].
  destruct (reachable_invariant runs s R Re) as [W C].
  assert (G : exists r a rest,
             In r (requests s) /\ todo r = a :: rest
             /\ enabled (mu s) a = true).
  { destruct (mu s) eqn:M.
    - destruct (some_request_inside (requests s)) as [r' [I' S']];
        [unfold inside in C; rewrite C; lia|].
      rewrite Forall_forall in W.
      destruct (inSequence_can_go_on r' (W _ I') S') as [a [rest [E En]]].
      exists r', a, rest. auto.
    - destruct (todo r) as [|a rest] eqn:E; [contradiction|].
      exists r, a, rest. repeat split; try assumption.
      destruct a; reflexivity. }
  destruct G as [[m td] [a [rest [I' [E En]]]]]. cbn [todo] in E. subst td.
  destruct (in_split _ _ I') as [before [behind Q]].
  destruct s as [held reqs]. cbn [requests mu] in *. subst reqs.
  eexists. split.
  - apply step_call. exact En.
  - apply step_uses_up_a_call. apply step_call. exact En.
Qed.

Lemma the_gate_never_blocks_every_request_witness :
  Forall DownloadRun [Example.run1; Example.run2]
  /\ reachable (start [Example.run1; Example.run2]) Example.locked
  /\ exists s', step Example.locked s'
                /\ remaining s' < remaining Example.locked.
Proof.
  assert (R : Forall DownloadRun [Example.run1; Example.run2])
    by (repeat constructor).
  assert (Re : reachable (start [Example.run1; Example.run2]) Example.locked).
  { eapply reachable_step; [apply reachable_start|].
    exact (step_call false [] [ {| made := []; todo := Example.run2 |} ]
             [] (tl Example.run1) MuLock eq_refl). }
  split; [exact R|]. split; [exact Re|].
  apply (the_gate_never_blocks_every_request _ _ R Re).
  exists {| made := []; todo := Example.run2 |}.
  split; [right; left; reflexivity | discriminate].
Defined.
